(** * Sample Modal API: the in-memory store and its handlers

    A shallow embedding of [modal_api.py].  The handlers are the bodies of the
    FastAPI endpoints; the constraints that FastAPI's [Query] declarations put
    on their arguments (ranges, regular expressions) are checked by the
    framework before a body runs and appear here as predicates on the
    arguments.

    Python values are modelled as follows:
    - [int] as [Z], [float] as the primitive binary64 [float];
    - [str] as [string], with [str.lower] a parameter of the development;
    - [Optional[T]] and [dict.get] as [option]; the raw dictionary that
      [create_order] receives is modelled for well-typed bodies, with
      integer quantities;
    - the process-wide [db] object as the [db] component of the state that
      every handler threads;
    - [uuid.uuid4], [datetime.now] and the [random] module as streams read at
      a cursor that each call advances. *)

From Stdlib Require Import ZArith List String Ascii Bool Lia Floats DecimalString.
Import ListNotations.

Local Open Scope string_scope.
Local Open Scope list_scope.
Local Open Scope Z_scope.

(** ** Python numbers *)

Module Py.

(** [float(z)] for an [int] z: rounded to nearest even.  The conversion that
    [float.__mul__] applies to an [int] operand raises [OverflowError] when
    the rounded value leaves the binary64 range. *)
Definition Z2float (z : Z) : float :=
  SF2Prim (binary_normalize prec emax z 0 false).

Definition float_of_int (z : Z) : option float :=
  match binary_normalize prec emax z 0 false with
  | S754_infinity _ => None
  | sf => Some (SF2Prim sf)
  end.

(** [str(n)] for an [int]. *)
Definition str_of_Z (z : Z) : string := NilZero.string_of_int (Z.to_int z).
Definition str_of_nat (n : nat) : string := str_of_Z (Z.of_nat n).

(** [str(x)] for an [Optional[str]], as an f-string formats it. *)
Definition str_of_opt (o : option string) : string :=
  match o with Some s => s | None => "None" end.

(** [a == b] where [a] is a [str] and [b] the result of a [dict.get]. *)
Definition eq_opt (a : string) (b : option string) : bool :=
  match b with Some s => String.eqb a s | None => false end.

(** Truthiness of an [Optional[str]]: [None] and the empty string are false. *)
Definition truthy (o : option string) : bool :=
  match o with Some "" | None => false | Some _ => true end.

(** [l[:n]]. *)
Definition slice_to {A} (n : Z) (l : list A) : list A :=
  if 0 <=? n then firstn (Z.to_nat n) l
  else firstn (List.length l - Z.to_nat (- n))%nat l.

(** The object that [next((x for x in l if f x), None)] returns. *)
Definition next {A} (f : A -> bool) (l : list A) : option A := find f l.

(** In-place mutation of the object [next] returned: the first element of
    the list that satisfies [f] is the one that changes. *)
Fixpoint update_first {A} (f : A -> bool) (g : A -> A) (l : list A) : list A :=
  match l with
  | [] => []
  | x :: r => if f x then g x :: r else x :: update_first f g r
  end.

(** [sum(l)] over floats, accumulated from the left as a [for] loop does. *)
Definition fsum (l : list float) : float :=
  fold_left PrimFloat.add l 0%float.

End Py.

(** ** Data models *)

Definition datetime := Z.

Inductive UserRole := ADMIN | USER | GUEST.

Module User.
Record t := mk {
  id : string;
  username : string;
  email : string;
  role : UserRole;
  created_at : datetime;
  is_active : bool
}.
End User.

Module Product.
Record t := mk {
  id : string;
  name : string;
  description : option string;
  price : float;
  category : string;
  in_stock : bool;
  stock_quantity : Z;
  tags : list string
}.

Definition set_stock_quantity (p : t) (n : Z) : t :=
  mk (id p) (name p) (description p) (price p) (category p) (in_stock p) n (tags p).

Definition set_in_stock (p : t) (b : bool) : t :=
  mk (id p) (name p) (description p) (price p) (category p) b (stock_quantity p) (tags p).

(** [Product(name=.., price=.., category=..)]: every other field at the
    default the model declares, the id drawn by the default factory. *)
Definition with_defaults (fresh_id name : string) (price : float) (category : string) : t :=
  mk fresh_id name None price category true 0 [].
End Product.

(** One entry of [Order.products]: the dictionary [create_order] appends. *)
Module LineItem.
Record t := mk {
  product_id : option string;
  name : string;
  quantity : Z;
  price : float;
  subtotal : float
}.
End LineItem.

Module Order.
Record t := mk {
  id : string;
  user_id : string;
  products : list LineItem.t;
  total_amount : float;
  status : string;
  created_at : datetime
}.
End Order.

(** What [.dict()] of a model gives, and the [data] field of a response. *)
Inductive Entity :=
| EUser (u : User.t)
| EProduct (p : Product.t)
| EOrder (o : Order.t).

Inductive Data :=
| DNone
| DDict (e : Entity)
| DList (es : list Entity).

Module ApiResponse.
Record t := mk {
  success : bool;
  message : string;
  data : Data;
  timestamp : datetime
}.
End ApiResponse.

(** The body of [POST /api/orders] is a raw dictionary; each key may be
    missing.  The model covers the well-typed bodies: [user_id] and
    [product_id] are strings, [products] is a list of dictionaries and
    [quantity] is an [int] of any sign and size, each of them possibly
    missing.  A body that carries another JSON value there (a [null], a
    string for a number, a float such as [2.5] or [NaN]) is outside the
    model, and so is what the handler does with it. *)
Module OrderItem.
Record t := mk {
  product_id : option string;
  quantity : option Z
}.
End OrderItem.

Module OrderData.
Record t := mk {
  user_id : option string;
  products : option (list OrderItem.t)
}.
End OrderData.

(** ** The simulated database *)

Module SimulatedDatabase.
Record t := mk {
  users : list User.t;
  products : list Product.t;
  orders : list Order.t
}.

Definition set_users (d : t) (us : list User.t) : t := mk us (products d) (orders d).
Definition set_products (d : t) (ps : list Product.t) : t := mk (users d) ps (orders d).
Definition set_orders (d : t) (os : list Order.t) : t := mk (users d) (products d) os.
End SimulatedDatabase.

(** ** Ambient effects and the handler monad *)

(** The sources a handler reads besides the database: the [tick]-th read of
    the clock, of the uuid generator and of the random module.
    [uniform_at k] stands for [round(random.uniform(10, 500), 2)] at read k. *)
Record World := mkWorld {
  tick : nat;
  now_at : nat -> datetime;
  uuid_at : nat -> string;
  rand_at : nat -> nat;
  uniform_at : nat -> float
}.

Definition advance (w : World) : World :=
  mkWorld (S (tick w)) (now_at w) (uuid_at w) (rand_at w) (uniform_at w).

Record State := mkState {
  db : SimulatedDatabase.t;
  world : World
}.

Inductive Exn :=
| HTTPException (status_code : Z) (detail : string)
| OverflowError.

Inductive Result (A : Type) :=
| Ok (a : A)
| Raise (e : Exn).
Arguments Ok {A} a.
Arguments Raise {A} e.

(** A handler either returns or raises; the state it leaves is kept in both
    cases, as mutations of [db] made before a [raise] are. *)
Definition M (A : Type) : Type := State -> Result A * State.

Definition ret {A} (a : A) : M A := fun s => (Ok a, s).

Definition raise {A} (e : Exn) : M A := fun s => (Raise e, s).

Definition bind {A B} (m : M A) (k : A -> M B) : M B :=
  fun s =>
    match m s with
    | (Ok a, s') => k a s'
    | (Raise e, s') => (Raise e, s')
    end.

Declare Scope handler_scope.
Delimit Scope handler_scope with handler.
Notation "x <- m ;; k" := (bind m (fun x => k))
  (at level 61, m at next level, right associativity) : handler_scope.
Notation "m ;;; k" := (bind m (fun _ => k))
  (at level 61, right associativity) : handler_scope.
Local Open Scope handler_scope.

Definition get_db : M SimulatedDatabase.t := fun s => (Ok (db s), s).

Definition put_db (d : SimulatedDatabase.t) : M unit :=
  fun s => (Ok tt, mkState d (world s)).

Definition read_world {A} (f : World -> nat -> A) : M A :=
  fun s => (Ok (f (world s) (tick (world s))), mkState (db s) (advance (world s))).

Definition datetime_now : M datetime := read_world now_at.
Definition uuid4 : M string := read_world uuid_at.
Definition random_draw : M nat := read_world rand_at.
Definition random_price : M float := read_world uniform_at.

(** [random.choice(xs)] for a non-empty literal list [d :: xs]. *)
Definition random_choice {A} (d : A) (xs : list A) : M A :=
  k <- random_draw ;;
  ret (nth (k mod (S (List.length xs))) (d :: xs) d).

(** [random.randint(a, b)] with a <= b. *)
Definition random_randint (a b : Z) : M Z :=
  k <- random_draw ;;
  ret (a + Z.of_nat k mod (b - a + 1)).

(** The conversion of the [int] operand of [price * quantity]. *)
Definition float_mul_int (x : float) (n : Z) : M float :=
  match Py.float_of_int n with
  | Some f => ret (PrimFloat.mul x f)
  | None => raise OverflowError
  end.

(** ** Model constructors and the seeded store *)

(** [User(...)]: the default factories of [id] and [created_at] run when the
    caller passes no value; [created_at] is never passed in this program. *)
Definition User_new (id : option string) (username email : string)
    (role : UserRole) (is_active : bool) : M User.t :=
  i <- match id with Some i => ret i | None => uuid4 end ;;
  t <- datetime_now ;;
  ret (User.mk i username email role t is_active).

(** [Product(...)], with [in_stock] left at its default [True]. *)
Definition Product_new (id : option string) (name : string)
    (description : option string) (price : float) (category : string)
    (stock_quantity : Z) (tags : list string) : M Product.t :=
  i <- match id with Some i => ret i | None => uuid4 end ;;
  ret (Product.mk i name description price category true stock_quantity tags).

Definition Order_new (user_id : string) (products : list LineItem.t)
    (total_amount : float) (status : string) : M Order.t :=
  i <- uuid4 ;;
  t <- datetime_now ;;
  ret (Order.mk i user_id products total_amount status t).

Definition _generate_sample_users : M (list User.t) :=
  u1 <- User_new (Some "user_001") "alice_w" "alice@example.com" ADMIN true ;;
  u2 <- User_new (Some "user_002") "bob_smith" "bob@example.com" USER true ;;
  u3 <- User_new (Some "user_003") "charlie_b" "charlie@example.com" GUEST true ;;
  ret [u1; u2; u3].

(** The prices are the binary64 values of the literals 199.99, 89.99 and
    29.99. *)
Definition _generate_sample_products : M (list Product.t) :=
  p1 <- Product_new (Some "prod_001") "Wireless Headphones"
          (Some "Noise-cancelling wireless headphones")
          0x1.8ffae147ae148p+7%float "Electronics" 50
          ["audio"; "wireless"; "tech"] ;;
  p2 <- Product_new (Some "prod_002") "Coffee Maker"
          (Some "Programmable drip coffee maker")
          0x1.67f5c28f5c28fp+6%float "Home & Kitchen" 25
          ["kitchen"; "appliance"; "coffee"] ;;
  p3 <- Product_new (Some "prod_003") "Yoga Mat"
          (Some "Eco-friendly non-slip yoga mat")
          0x1.dfd70a3d70a3dp+4%float "Fitness" 100
          ["fitness"; "yoga"; "exercise"] ;;
  ret [p1; p2; p3].

(** [db = SimulatedDatabase()], run once when the module is loaded. *)
Definition SimulatedDatabase_init : M unit :=
  users <- _generate_sample_users ;;
  products <- _generate_sample_products ;;
  put_db (SimulatedDatabase.mk users products []).

Definition initial_state (w : World) : State :=
  snd (SimulatedDatabase_init (mkState (SimulatedDatabase.mk [] [] []) w)).

(** ** Helper functions *)

Definition create_api_response (success : bool) (message : string) (data : Data)
  : M ApiResponse.t :=
  t <- datetime_now ;;
  ret (ApiResponse.mk success message data t).

Definition UserRole_eqb (a b : UserRole) : bool :=
  match a, b with
  | ADMIN, ADMIN | USER, USER | GUEST, GUEST => true
  | _, _ => false
  end.

(** [list(UserRole)] is [ADMIN :: UserRole_rest]. *)
Definition UserRole_rest : list UserRole := [USER; GUEST].

(** Lines 262-264: the decrement and the update of [in_stock] that follows
    it. *)
Definition decrement (product : Product.t) (quantity : Z) : Product.t :=
  let product :=
    Product.set_stock_quantity product (Product.stock_quantity product - quantity) in
  if Product.stock_quantity product =? 0
  then Product.set_in_stock product false
  else product.

(** ** API endpoints *)

Section API.

(** [str.lower]. *)
Variable lower : string -> string.

(** The successive values of the local [users] of [get_users]. *)
Definition filter_users (role : option UserRole) (active_only : bool) (limit : Z)
    (users : list User.t) : list User.t :=
  let users :=
    match role with
    | Some r => filter (fun u => UserRole_eqb (User.role u) r) users
    | None => users
    end in
  let users := if active_only then filter User.is_active users else users in
  Py.slice_to limit users.

(** [GET /api/users]; [limit] is declared [Query(10, ge=1, le=100)]. *)
Definition get_users (role : option UserRole) (active_only : bool) (limit : Z)
  : M ApiResponse.t :=
  d <- get_db ;;
  let users := filter_users role active_only limit (SimulatedDatabase.users d) in
  create_api_response true
    ("Retrieved " ++ Py.str_of_nat (List.length users) ++ " users")%string
    (DList (map EUser users)).

(** [GET /api/users/{user_id}]. *)
Definition get_user (user_id : string) : M ApiResponse.t :=
  d <- get_db ;;
  match Py.next (fun u => String.eqb (User.id u) user_id) (SimulatedDatabase.users d) with
  | None => raise (HTTPException 404 "User not found")
  | Some user =>
    create_api_response true "User retrieved successfully" (DDict (EUser user))
  end.

(** [POST /api/users]; [user] is the model pydantic built from the body. *)
Definition create_user (user : User.t) : M ApiResponse.t :=
  d <- get_db ;;
  if existsb (fun u => String.eqb (User.username u) (User.username user))
       (SimulatedDatabase.users d)
  then raise (HTTPException 400 "Username already exists")
  else if existsb (fun u => String.eqb (User.email u) (User.email user))
            (SimulatedDatabase.users d)
  then raise (HTTPException 400 "Email already exists")
  else
    put_db (SimulatedDatabase.set_users d (SimulatedDatabase.users d ++ [user])) ;;;
    create_api_response true "User created successfully" (DDict (EUser user)).

(** The successive values of the local [products] of [get_products]; an
    [if category:] or [if tag:] passes for a string that is present and not
    empty. *)
Definition filter_products (category : option string) (min_price max_price : option float)
    (in_stock : bool) (tag : option string) (products : list Product.t)
  : list Product.t :=
  let products :=
    match category with
    | Some c =>
      if Py.truthy category
      then filter (fun p => String.eqb (lower (Product.category p)) (lower c)) products
      else products
    | None => products
    end in
  let products :=
    match min_price with
    | Some m => filter (fun p => PrimFloat.leb m (Product.price p)) products
    | None => products
    end in
  let products :=
    match max_price with
    | Some m => filter (fun p => PrimFloat.leb (Product.price p) m) products
    | None => products
    end in
  let products :=
    if in_stock
    then filter (fun p => Product.in_stock p && (0 <? Product.stock_quantity p)) products
    else products in
  match tag with
  | Some t =>
    if Py.truthy tag
    then filter (fun p => existsb (String.eqb (lower t)) (map lower (Product.tags p)))
           products
    else products
  | None => products
  end.

(** [GET /api/products]; [min_price] and [max_price] are declared
    [Query(None, ge=0)]. *)
Definition get_products (category : option string) (min_price max_price : option float)
    (in_stock : bool) (tag : option string) : M ApiResponse.t :=
  d <- get_db ;;
  let products :=
    filter_products category min_price max_price in_stock tag
      (SimulatedDatabase.products d) in
  create_api_response true
    ("Retrieved " ++ Py.str_of_nat (List.length products) ++ " products")%string
    (DList (map EProduct products)).

(** [GET /api/products/{product_id}]. *)
Definition get_product (product_id : string) : M ApiResponse.t :=
  d <- get_db ;;
  match Py.next (fun p => String.eqb (Product.id p) product_id)
          (SimulatedDatabase.products d) with
  | None => raise (HTTPException 404 "Product not found")
  | Some product =>
    create_api_response true "Product retrieved successfully" (DDict (EProduct product))
  end.

(** The body of the [for item in ...] loop of [create_order], lines 248-274.
    [acc] holds the local variables [products] and [total_amount]. *)
Definition order_item (item : OrderItem.t) (acc : list LineItem.t * float)
  : M (list LineItem.t * float) :=
  let '(products, total_amount) := acc in
  let product_id := OrderItem.product_id item in
  let quantity := match OrderItem.quantity item with Some q => q | None => 1 end in
  d <- get_db ;;
  let is_it := fun p => Py.eq_opt (Product.id p) product_id in
  match Py.next is_it (SimulatedDatabase.products d) with
  | None =>
    raise (HTTPException 404 ("Product " ++ Py.str_of_opt product_id ++ " not found")%string)
  | Some product =>
    if Product.stock_quantity product <? quantity
    then raise (HTTPException 400 ("Insufficient stock for " ++ Product.name product)%string)
    else
      put_db (SimulatedDatabase.set_products d
                (Py.update_first is_it (fun p => decrement p quantity)
                   (SimulatedDatabase.products d))) ;;;
      subtotal <- float_mul_int (Product.price product) quantity ;;
      let products :=
        products ++ [LineItem.mk product_id (Product.name product) quantity
                       (Product.price product) subtotal] in
      amount <- float_mul_int (Product.price product) quantity ;;
      ret (products, PrimFloat.add total_amount amount)
  end.

Fixpoint order_loop (items : list OrderItem.t) (acc : list LineItem.t * float)
  : M (list LineItem.t * float) :=
  match items with
  | [] => ret acc
  | item :: rest => acc' <- order_item item acc ;; order_loop rest acc'
  end.

(** [POST /api/orders]. *)
Definition create_order (order_data : OrderData.t) : M ApiResponse.t :=
  d <- get_db ;;
  match Py.next (fun u => Py.eq_opt (User.id u) (OrderData.user_id order_data))
          (SimulatedDatabase.users d) with
  | None => raise (HTTPException 404 "User not found")
  | Some user =>
    let items :=
      match OrderData.products order_data with Some l => l | None => [] end in
    acc <- order_loop items ([], 0%float) ;;
    let '(products, total_amount) := acc in
    order <- Order_new (User.id user) products total_amount "confirmed" ;;
    d <- get_db ;;
    put_db (SimulatedDatabase.set_orders d (SimulatedDatabase.orders d ++ [order])) ;;;
    create_api_response true "Order created successfully" (DDict (EOrder order))
  end.

(** [GET /api/orders/{order_id}]. *)
Definition get_order (order_id : string) : M ApiResponse.t :=
  d <- get_db ;;
  match Py.next (fun o => String.eqb (Order.id o) order_id)
          (SimulatedDatabase.orders d) with
  | None => raise (HTTPException 404 "Order not found")
  | Some order =>
    create_api_response true "Order retrieved successfully" (DDict (EOrder order))
  end.

(** [for i in range(n): random_data.append(body)]. *)
Fixpoint for_range (n : nat) (body : M Entity) (random_data : list Entity)
  : M (list Entity) :=
  match n with
  | O => ret random_data
  | S n' => e <- body ;; for_range n' body (random_data ++ [e])
  end.

Definition random_user : M Entity :=
  first <- random_choice "John" ["Jane"; "Alex"; "Emily"; "Chris"; "Sarah"; "Mike"; "Lisa"] ;;
  last <- random_choice "Smith" ["Johnson"; "Williams"; "Brown"; "Jones"; "Davis"; "Miller"] ;;
  let username := (lower first ++ "_" ++ lower last)%string in
  domain <- random_choice "example.com" ["test.org"; "demo.net"] ;;
  let email := (username ++ "@" ++ domain)%string in
  role <- random_choice ADMIN UserRole_rest ;;
  is_active <- random_choice true [false] ;;
  user <- User_new None username email role is_active ;;
  ret (EUser user).

Definition random_product : M Entity :=
  adjective <- random_choice "Premium"
                 ["Standard"; "Deluxe"; "Basic"; "Advanced"; "Professional"] ;;
  noun <- random_choice "Widget" ["Gadget"; "Device"; "Tool"; "Equipment"; "Accessory"] ;;
  adjective' <- random_choice "Premium"
                  ["Standard"; "Deluxe"; "Basic"; "Advanced"; "Professional"] ;;
  price <- random_price ;;
  category <- random_choice "Electronics" ["Books"; "Clothing"; "Home"; "Sports"; "Toys"] ;;
  stock_quantity <- random_randint 0 200 ;;
  tag <- random_choice "new" ["sale"; "featured"; "bestseller"] ;;
  product <- Product_new None (adjective ++ " " ++ noun)%string
               (Some ("Description for " ++ lower adjective' ++ " product")%string)
               price category stock_quantity [tag] ;;
  let product := Product.set_in_stock product (0 <? Product.stock_quantity product) in
  ret (EProduct product).

(** [GET /api/simulate/random-data]; [data_type] is declared with the
    pattern [^(users|products|orders)$] and [count] with [ge=1, le=20]. *)
Definition generate_random_data (data_type : string) (count : Z) : M ApiResponse.t :=
  random_data <-
    (if String.eqb data_type "users" then for_range (Z.to_nat count) random_user []
     else if String.eqb data_type "products" then for_range (Z.to_nat count) random_product []
     else ret []) ;;
  create_api_response true
    ("Generated " ++ Py.str_of_Z count ++ " random " ++ data_type)%string
    (DList random_data).

(** The requests that read or write the collections of the store, and their
    dispatch.  The remaining endpoints ([/], [/health], [/api/stats] and
    [/simulate-error]) never assign to [db] or to an object it holds. *)
Inductive Request :=
| GetUsers (role : option UserRole) (active_only : bool) (limit : Z)
| GetUser (user_id : string)
| CreateUser (user : User.t)
| GetProducts (category : option string) (min_price max_price : option float)
    (in_stock : bool) (tag : option string)
| GetProduct (product_id : string)
| CreateOrder (order_data : OrderData.t)
| GetOrder (order_id : string)
| GenerateRandomData (data_type : string) (count : Z).

Definition handle (r : Request) : M ApiResponse.t :=
  match r with
  | GetUsers role active_only limit => get_users role active_only limit
  | GetUser user_id => get_user user_id
  | CreateUser user => create_user user
  | GetProducts category min_price max_price in_stock tag =>
    get_products category min_price max_price in_stock tag
  | GetProduct product_id => get_product product_id
  | CreateOrder order_data => create_order order_data
  | GetOrder order_id => get_order order_id
  | GenerateRandomData data_type count => generate_random_data data_type count
  end.

End API.

(** ** A concrete environment

    [str.lower] restricted to the ASCII letters, and a world whose clock
    advances at every read; used to run the handlers on the seeded store. *)

Definition ascii_lower_char (c : ascii) : ascii :=
  let n := nat_of_ascii c in
  if ((65 <=? n) && (n <=? 90))%nat then ascii_of_nat (n + 32) else c.

Fixpoint ascii_lower (s : string) : string :=
  match s with
  | EmptyString => EmptyString
  | String c r => String (ascii_lower_char c) (ascii_lower r)
  end.

Definition world0 : World :=
  mkWorld 0
    (fun k => 1700000000 + Z.of_nat k)
    (fun k => ("uuid-" ++ Py.str_of_nat k)%string)
    (fun k => k)
    (fun _ => 0x1.9p+6%float).

Definition seeded : State := initial_state world0.

(** ** Vocabulary of the properties *)

(** The [data] field of a successful response. *)
Definition payload (r : Result ApiResponse.t) : option Data :=
  match r with
  | Ok resp => Some (ApiResponse.data resp)
  | Raise _ => None
  end.

(** The stock invariant of the data model. *)
Definition stock_invariant (p : Product.t) : Prop :=
  Product.in_stock p = (0 <? Product.stock_quantity p).

(** The quantity and the product test that [order_item] derives from an
    item. *)
Definition quantity_of (item : OrderItem.t) : Z :=
  match OrderItem.quantity item with Some q => q | None => 1 end.

Definition is_item (item : OrderItem.t) (p : Product.t) : bool :=
  Py.eq_opt (Product.id p) (OrderItem.product_id item).

Definition is_user (order_data : OrderData.t) (u : User.t) : bool :=
  Py.eq_opt (User.id u) (OrderData.user_id order_data).

Definition items_of (order_data : OrderData.t) : list OrderItem.t :=
  match OrderData.products order_data with Some l => l | None => [] end.

(** The products after the stock decrement of one item, and of a sequence
    of items in order. *)
Definition decrement_item (ps : list Product.t) (item : OrderItem.t) : list Product.t :=
  Py.update_first (is_item item) (fun p => decrement p (quantity_of item)) ps.

Definition decrement_all (items : list OrderItem.t) (ps : list Product.t)
  : list Product.t :=
  fold_left decrement_item items ps.

(** The state after the stock decrement of [item]. *)
Definition decremented (item : OrderItem.t) (s : State) : State :=
  mkState
    (SimulatedDatabase.set_products (db s)
       (decrement_item (SimulatedDatabase.products (db s)) item))
    (world s).

(** The typed failure of an item against the products [ps]. *)
Inductive item_error (item : OrderItem.t) (ps : list Product.t) : Exn -> Prop :=
| ProductNotFound :
    Py.next (is_item item) ps = None ->
    item_error item ps
      (HTTPException 404
         ("Product " ++ Py.str_of_opt (OrderItem.product_id item) ++ " not found")%string)
| InsufficientStock product :
    Py.next (is_item item) ps = Some product ->
    Product.stock_quantity product < quantity_of item ->
    item_error item ps
      (HTTPException 400 ("Insufficient stock for " ++ Product.name product)%string).

(** A line item records its input item against the products [ps] found at
    the time the item is processed. *)
Definition line_of (ps : list Product.t) (item : OrderItem.t) (li : LineItem.t) : Prop :=
  LineItem.product_id li = OrderItem.product_id item /\
  LineItem.quantity li = quantity_of item /\
  exists product,
    Py.next (is_item item) ps = Some product /\
    LineItem.name li = Product.name product /\
    LineItem.price li = Product.price product /\
    LineItem.subtotal li
    = PrimFloat.mul (LineItem.price li) (Py.Z2float (LineItem.quantity li)).

Fixpoint lines_of (ps : list Product.t) (items : list OrderItem.t)
    (lines : list LineItem.t) : Prop :=
  match items, lines with
  | [], [] => True
  | item :: items', li :: lines' =>
    line_of ps item li /\ lines_of (decrement_item ps item) items' lines'
  | _, _ => False
  end.

(** [unit_price * quantity] of a line item. *)
Definition line_amount (li : LineItem.t) : float :=
  PrimFloat.mul (LineItem.price li) (Py.Z2float (LineItem.quantity li)).

(** A user that shares its username or its email with a stored one. *)
Definition conflicts (user : User.t) (users : list User.t) : Prop :=
  exists u, In u users /\
    (User.username u = User.username user \/ User.email u = User.email user).

(** Two results that agree on everything but the time stamp of the
    envelope. *)
Definition same_payload (r1 r2 : Result ApiResponse.t) : Prop :=
  match r1, r2 with
  | Ok a, Ok b =>
    ApiResponse.success a = ApiResponse.success b /\
    ApiResponse.message a = ApiResponse.message b /\
    ApiResponse.data a = ApiResponse.data b
  | Raise e1, Raise e2 => e1 = e2
  | _, _ => False
  end.

(** The conjunction of the predicates of the product listing, every
    supplied value taken as a constraint. *)
Definition listing_predicate (lower : string -> string)
    (category : option string) (min_price max_price : option float)
    (in_stock : bool) (tag : option string) (p : Product.t) : bool :=
  match category with
  | Some c => String.eqb (lower (Product.category p)) (lower c)
  | None => true
  end
  && match min_price with Some m => PrimFloat.leb m (Product.price p) | None => true end
  && match max_price with Some m => PrimFloat.leb (Product.price p) m | None => true end
  && (if in_stock then Product.in_stock p && (0 <? Product.stock_quantity p) else true)
  && match tag with
     | Some t => existsb (String.eqb (lower t)) (map lower (Product.tags p))
     | None => true
     end.

(** A string argument counts as supplied when it is present and not
    empty. *)
Definition supplied (o : option string) : option string :=
  if Py.truthy o then o else None.

(** The values that the declarations of [generate_random_data] admit. *)
Definition valid_data_type (data_type : string) : Prop :=
  data_type = "users" \/ data_type = "products" \/ data_type = "orders".

Definition valid_count (count : Z) : Prop := 1 <= count <= 20.

(** Requests whose order items all ask for a quantity, an integer as in
    every [OrderItem.t], that is not negative. *)
Definition nonneg_request (r : Request) : Prop :=
  match r with
  | CreateOrder order_data => Forall (fun item => 0 <= quantity_of item) (items_of order_data)
  | _ => True
  end.

(** The states that the requests satisfying [ok] reach from the seeded
    store.  The requests are those of [Request]: the eight endpoints that
    [handle] dispatches, with well-typed order bodies whose quantities are
    integers. *)
Inductive reachable (lower : string -> string) (ok : Request -> Prop) : State -> Prop :=
| reach_init w : reachable lower ok (initial_state w)
| reach_step s r :
    reachable lower ok s -> ok r -> reachable lower ok (snd (handle lower r s)).

(** ** Further endpoints *)

(** [GET /simulate-error]: one of six errors, chosen at random. *)
Definition error_types : list (Z * string) :=
  [(400, "Bad Request"); (401, "Unauthorized"); (403, "Forbidden"); (404, "Not Found");
   (500, "Internal Server Error"); (503, "Service Unavailable")].

Definition simulate_error : M ApiResponse.t :=
  error <- random_choice (400, "Bad Request")
             [(401, "Unauthorized"); (403, "Forbidden"); (404, "Not Found");
              (500, "Internal Server Error"); (503, "Service Unavailable")] ;;
  raise (HTTPException (fst error) (snd error)).

(** A Python number that is an [int] or a [float]. *)
Inductive Number :=
| Int (z : Z)
| Float (f : float).

(** The dictionary that [get_statistics] builds, and the response that
    carries it as [data]. *)
Module Statistics.
Record t := mk {
  total_users : nat;
  total_products : nat;
  total_orders : nat;
  active_users : nat;
  in_stock_products : nat;
  total_inventory_value : Number;
  recent_orders : nat
}.
End Statistics.

Module StatisticsResponse.
Record t := mk {
  success : bool;
  message : string;
  data : Statistics.t;
  timestamp : datetime
}.
End StatisticsResponse.

(** [(a - b).days] for two readings of the clock, counted in microseconds:
    the whole days of the difference, rounded down. *)
Definition timedelta_days (a b : datetime) : Z := (a - b) / 86400000000.

Section Statistics.

(** The builtin [sum] over a non-empty sequence of floats; the way it
    accumulates them differs between versions of the interpreter. *)
Variable builtin_sum : list float -> float.

(** [sum(g)] for a generator [g] of floats: the [int] 0 when it is empty. *)
Definition py_sum (l : list float) : Number :=
  match l with
  | [] => Int 0
  | _ :: _ => Float (builtin_sum l)
  end.

(** The values of the generator [p.price * p.stock_quantity for p in ...],
    up to the first product whose stock does not convert. *)
Fixpoint inventory_values (products : list Product.t) : M (list float) :=
  match products with
  | [] => ret []
  | p :: rest =>
    v <- float_mul_int (Product.price p) (Product.stock_quantity p) ;;
    vs <- inventory_values rest ;;
    ret (v :: vs)
  end.

(** [[o for o in orders if (datetime.now() - o.created_at).days < 7]]: the
    clock is read once for every order. *)
Fixpoint recent (orders : list Order.t) : M (list Order.t) :=
  match orders with
  | [] => ret []
  | o :: rest =>
    now <- datetime_now ;;
    os <- recent rest ;;
    ret (if timedelta_days now (Order.created_at o) <? 7 then o :: os else os)
  end.

(** [GET /api/stats]. *)
Definition get_statistics : M StatisticsResponse.t :=
  d <- get_db ;;
  let total_users := List.length (SimulatedDatabase.users d) in
  let total_products := List.length (SimulatedDatabase.products d) in
  let total_orders := List.length (SimulatedDatabase.orders d) in
  let active_users := List.length (filter User.is_active (SimulatedDatabase.users d)) in
  let in_stock_products :=
    List.length (filter Product.in_stock (SimulatedDatabase.products d)) in
  values <- inventory_values (SimulatedDatabase.products d) ;;
  let total_inventory_value := py_sum values in
  recent_orders <- recent (SimulatedDatabase.orders d) ;;
  let stats :=
    Statistics.mk total_users total_products total_orders active_users
      in_stock_products total_inventory_value (List.length recent_orders) in
  t <- datetime_now ;;
  ret (StatisticsResponse.mk true "Statistics retrieved" stats t).

End Statistics.

(** ** Vocabulary of the further properties *)

(** The state after a sequence of requests, each handled in turn. *)
Definition handle_all (lower : string -> string) (requests : list Request) (s : State)
  : State :=
  fold_left (fun s r => snd (handle lower r s)) requests s.

(** The fields of a product that describe it in the catalogue. *)
Definition catalogue_entry (p : Product.t)
  : string * string * option string * float * string * list string :=
  (Product.id p, Product.name p, Product.description p, Product.price p,
   Product.category p, Product.tags p).

(** The lookup of a product by its id. *)
Definition has_id (product_id : string) (p : Product.t) : bool :=
  String.eqb (Product.id p) product_id.

(** The quantity that the items of an order ask of the product
    [product_id], all items added up. *)
Fixpoint ordered_quantity (product_id : string) (items : list OrderItem.t) : Z :=
  match items with
  | [] => 0
  | item :: rest =>
    (if Py.eq_opt product_id (OrderItem.product_id item) then quantity_of item else 0)
    + ordered_quantity product_id rest
  end.

(** The predicate of the user listing. *)
Definition user_predicate (role : option UserRole) (active_only : bool) (u : User.t)
  : bool :=
  match role with Some r => UserRole_eqb (User.role u) r | None => true end
  && (if active_only then User.is_active u else true).

(** Requests whose order quantities, integers as in every [OrderItem.t],
    all convert to a float. *)
Definition convertible_request (r : Request) : Prop :=
  match r with
  | CreateOrder order_data =>
    Forall (fun item => Py.float_of_int (quantity_of item) <> None) (items_of order_data)
  | _ => True
  end.

(** An order as [create_order] stores it, against the stored users. *)
Definition well_formed_order (users : list User.t) (o : Order.t) : Prop :=
  Order.status o = "confirmed" /\
  (exists u, In u users /\ User.id u = Order.user_id o) /\
  Order.total_amount o = Py.fsum (map line_amount (Order.products o)) /\
  Forall (fun li => LineItem.subtotal li = line_amount li) (Order.products o).

(** The vocabularies of the generator. *)
Definition generated_product (p : Product.t) : Prop :=
  stock_invariant p /\
  0 <= Product.stock_quantity p <= 200 /\
  In (Product.category p) ["Electronics"; "Books"; "Clothing"; "Home"; "Sports"; "Toys"] /\
  exists tag, Product.tags p = [tag] /\ In tag ["new"; "sale"; "featured"; "bestseller"].

Definition generated_user (lower : string -> string) (u : User.t) : Prop :=
  exists first last domain,
    In first ["John"; "Jane"; "Alex"; "Emily"; "Chris"; "Sarah"; "Mike"; "Lisa"] /\
    In last ["Smith"; "Johnson"; "Williams"; "Brown"; "Jones"; "Davis"; "Miller"] /\
    In domain ["example.com"; "test.org"; "demo.net"] /\
    User.username u = (lower first ++ "_" ++ lower last)%string /\
    User.email u = (User.username u ++ "@" ++ domain)%string.

(** A product whose stock is not negative and that is flagged in stock only
    with a positive stock. *)
Definition sellable (p : Product.t) : Prop :=
  0 <= Product.stock_quantity p /\
  (Product.in_stock p = true -> 0 < Product.stock_quantity p).

(** A product [p'] that is [p] but for its stock, with an [in_stock] flag
    that has not been turned on. *)
Definition later_product (p p' : Product.t) : Prop :=
  catalogue_entry p' = catalogue_entry p /\
  (Product.in_stock p' = true -> Product.in_stock p = true).

(** An outcome that is a success or one of the two HTTP errors that the
    handlers raise themselves. *)
Definition typed_outcome (r : Result ApiResponse.t) : Prop :=
  match r with
  | Ok resp => ApiResponse.success resp = true
  | Raise (HTTPException code _) => code = 400 \/ code = 404
  | Raise OverflowError => False
  end.

(** The value of a product in the inventory. *)
Definition inventory_value (p : Product.t) : float :=
  PrimFloat.mul (Product.price p) (Py.Z2float (Product.stock_quantity p)).

(** * Properties *)

(** ** Lookups and in-place updates *)

Lemma eq_opt_true (a : string) (b : option string) :
  Py.eq_opt a b = true <-> b = Some a.
Proof.
  destruct b as [s|]; cbn; [rewrite String.eqb_eq|]; split; congruence.
Qed.

Lemma next_absent {A} (f : A -> bool) (l : list A) :
  (forall x, In x l -> f x = false) -> Py.next f l = None.
Proof.
  unfold Py.next. induction l as [|x l IH]; cbn; intros H; [reflexivity|].
  rewrite (H x (or_introl eq_refl)). apply IH. intros y Hy. apply H. now right.
Qed.

Lemma next_present {A} (f : A -> bool) (l : list A) (x : A) :
  In x l -> f x = true -> exists y, Py.next f l = Some y /\ In y l /\ f y = true.
Proof.
  unfold Py.next. induction l as [|a l IH]; cbn; intros Hin Hx; [contradiction|].
  destruct (f a) eqn:Ha.
  - exists a. auto.
  - destruct Hin as [->|Hin]; [congruence|].
    destruct (IH Hin Hx) as (y & Hy & Hyin & Hfy). exists y. auto.
Qed.

Lemma next_some {A} (f : A -> bool) (l : list A) (x : A) :
  Py.next f l = Some x -> In x l /\ f x = true.
Proof. unfold Py.next. intros H. apply find_some in H. exact H. Qed.

Lemma next_update_first {A} (f : A -> bool) (g : A -> A) (l : list A) (x : A) :
  Py.next f l = Some x -> f (g x) = true ->
  Py.next f (Py.update_first f g l) = Some (g x).
Proof.
  unfold Py.next. induction l as [|a l IH]; cbn; [discriminate|].
  destruct (f a) eqn:Ha; intros H Hg.
  - injection H as ->. cbn. now rewrite Hg.
  - cbn. rewrite Ha. now apply IH.
Qed.

Lemma update_first_Forall {A} (P : A -> Prop) (f : A -> bool) (g : A -> A) (l : list A) :
  Forall P l -> (forall x, Py.next f l = Some x -> P x -> P (g x)) ->
  Forall P (Py.update_first f g l).
Proof.
  unfold Py.next. induction 1 as [|a l Ha Hl IH]; cbn; intros Hg; [constructor|].
  destruct (f a) eqn:Hfa.
  - constructor; [apply Hg; auto|exact Hl].
  - constructor; [exact Ha|]. apply IH. exact Hg.
Qed.

Lemma update_first_map {A B} (h : A -> B) (f : A -> bool) (g : A -> A) (l : list A) :
  (forall x, h (g x) = h x) -> map h (Py.update_first f g l) = map h l.
Proof.
  intros Hh. induction l as [|a l IH]; cbn; [reflexivity|].
  destruct (f a); cbn; [now rewrite Hh|now rewrite IH].
Qed.

(** A stored user with the id of the request makes the lookup of
    [create_order] return a user with that id. *)
Lemma next_user (order_data : OrderData.t) (users : list User.t) (u : User.t) :
  In u users -> OrderData.user_id order_data = Some (User.id u) ->
  exists user, Py.next (is_user order_data) users = Some user /\ User.id user = User.id u.
Proof.
  intros Hin Hid.
  destruct (next_present (is_user order_data) users u Hin) as (user & Hnext & _ & Hu).
  { unfold is_user. now apply eq_opt_true. }
  exists user. split; [exact Hnext|].
  unfold is_user in Hu. apply eq_opt_true in Hu. congruence.
Qed.

(** ** The order transaction: unknown user *)

(** C4: an order whose [user_id] matches no stored user fails with
    "User not found" (404) and leaves the whole state, and so every product's
    [stock_quantity] and [in_stock] and the list of orders, as it was. *)
Theorem create_order_unknown_user (order_data : OrderData.t) (s : State) :
  (forall u, In u (SimulatedDatabase.users (db s)) ->
     OrderData.user_id order_data <> Some (User.id u)) ->
  create_order order_data s = (Raise (HTTPException 404 "User not found"), s) /\
  SimulatedDatabase.products (db (snd (create_order order_data s)))
  = SimulatedDatabase.products (db s) /\
  SimulatedDatabase.orders (db (snd (create_order order_data s)))
  = SimulatedDatabase.orders (db s).
Proof.
  intros Hno.
  assert (E : create_order order_data s
              = (Raise (HTTPException 404 "User not found"), s)).
  { unfold create_order, bind, get_db.
    rewrite next_absent; [reflexivity|].
    intros u Hu. destruct (Py.eq_opt _ _) eqn:Heq; [|reflexivity].
    apply eq_opt_true in Heq. now apply Hno in Hu. }
  rewrite E. auto.
Qed.

Lemma create_order_unknown_user_witness :
  let order_data :=
    OrderData.mk (Some "user_999") (Some [OrderItem.mk (Some "prod_001") (Some 2)]) in
  create_order order_data seeded = (Raise (HTTPException 404 "User not found"), seeded) /\
  SimulatedDatabase.products (db (snd (create_order order_data seeded)))
  = SimulatedDatabase.products (db seeded) /\
  SimulatedDatabase.orders (db (snd (create_order order_data seeded)))
  = SimulatedDatabase.orders (db seeded).
Proof.
  cbv zeta. apply create_order_unknown_user.
  intros u Hu. vm_compute in Hu.
  destruct Hu as [<-|[<-|[<-|[]]]]; discriminate.
Defined.

(** ** The order transaction: one item *)

Lemma float_of_int_some (z : Z) (f : float) :
  Py.float_of_int z = Some f -> f = Py.Z2float z.
Proof.
  unfold Py.float_of_int, Py.Z2float.
  destruct (binary_normalize prec emax z 0 false); congruence.
Qed.

(** The three exits of the loop body, and its normal completion. *)
Lemma order_item_run (item : OrderItem.t) (lines : list LineItem.t) (total : float)
    (s : State) :
  order_item item (lines, total) s =
  match Py.next (is_item item) (SimulatedDatabase.products (db s)) with
  | None =>
    (Raise (HTTPException 404
              ("Product " ++ Py.str_of_opt (OrderItem.product_id item) ++ " not found")%string),
     s)
  | Some product =>
    if Product.stock_quantity product <? quantity_of item
    then (Raise (HTTPException 400
                   ("Insufficient stock for " ++ Product.name product)%string), s)
    else
      match Py.float_of_int (quantity_of item) with
      | None => (Raise OverflowError, decremented item s)
      | Some f =>
        (Ok (lines ++ [LineItem.mk (OrderItem.product_id item) (Product.name product)
                         (quantity_of item) (Product.price product)
                         (PrimFloat.mul (Product.price product) f)],
             PrimFloat.add total (PrimFloat.mul (Product.price product) f)),
         decremented item s)
      end
  end.
Proof.
  unfold order_item, bind, get_db, put_db, float_mul_int, ret, raise.
  fold (quantity_of item). change (fun p => Py.eq_opt (Product.id p) _) with (is_item item).
  destruct (Py.next (is_item item) _) as [product|]; [|reflexivity].
  destruct (Product.stock_quantity product <? quantity_of item); [reflexivity|].
  cbn. destruct (Py.float_of_int (quantity_of item)); reflexivity.
Qed.

(** Whatever its outcome, the loop body touches neither the users, nor the
    orders, nor the ambient world. *)
Lemma order_item_frame (item : OrderItem.t) (acc : list LineItem.t * float) (s : State) :
  let s' := snd (order_item item acc s) in
  SimulatedDatabase.users (db s') = SimulatedDatabase.users (db s) /\
  SimulatedDatabase.orders (db s') = SimulatedDatabase.orders (db s) /\
  world s' = world s.
Proof.
  destruct acc as [lines total]. rewrite order_item_run.
  destruct (Py.next _ _) as [product|]; [|cbn; auto].
  destruct (_ <? _); [cbn; auto|].
  destruct (Py.float_of_int _); cbn; auto.
Qed.

Lemma decrement_id (p : Product.t) (q : Z) : Product.id (decrement p q) = Product.id p.
Proof. unfold decrement. cbn. destruct (_ =? _); reflexivity. Qed.

Lemma decrement_price (p : Product.t) (q : Z) :
  Product.price (decrement p q) = Product.price p.
Proof. unfold decrement. cbn. destruct (_ =? _); reflexivity. Qed.

Lemma decrement_stock (p : Product.t) (q : Z) :
  Product.stock_quantity (decrement p q) = Product.stock_quantity p - q.
Proof. unfold decrement. cbn. destruct (_ =? _); reflexivity. Qed.

(** The decrements leave the id, the name and the price of every product
    as they are: the price of a line item is the price the product has
    throughout the call. *)
Lemma decrement_all_static (items : list OrderItem.t) :
  forall ps,
    map (fun p => (Product.id p, Product.name p, Product.price p)) (decrement_all items ps)
    = map (fun p => (Product.id p, Product.name p, Product.price p)) ps.
Proof.
  unfold decrement_all.
  induction items as [|item items IH]; intros ps; cbn; [reflexivity|].
  rewrite IH. unfold decrement_item. apply update_first_map.
  intros p. unfold decrement. cbn. destruct (_ =? _); reflexivity.
Qed.

(** A decrement by a quantity that is not negative and not above the stock
    keeps the stock invariant. *)
Lemma decrement_invariant (p : Product.t) (q : Z) :
  0 <= q <= Product.stock_quantity p ->
  stock_invariant p -> stock_invariant (decrement p q).
Proof.
  unfold stock_invariant, decrement. cbn. intros Hq Hp.
  destruct (Product.stock_quantity p - q =? 0) eqn:E; cbn.
  - apply Z.eqb_eq in E. rewrite E. reflexivity.
  - apply Z.eqb_neq in E. rewrite Hp.
    destruct (Z.ltb_spec 0 (Product.stock_quantity p));
      destruct (Z.ltb_spec 0 (Product.stock_quantity p - q)); try reflexivity; lia.
Qed.

(** ** The order transaction: the loop *)

(** A run of the loop that completes has appended one line per item, each
    recorded against the products as they stood when the item was reached,
    has added the amounts of these lines to the total in order, and leaves
    the products with every item's decrement applied. *)
Lemma order_loop_ok (items : list OrderItem.t) :
  forall lines total s lines' total' s',
    order_loop items (lines, total) s = (Ok (lines', total'), s') ->
    exists new,
      lines' = lines ++ new /\
      lines_of (SimulatedDatabase.products (db s)) items new /\
      total' = fold_left PrimFloat.add (map line_amount new) total /\
      SimulatedDatabase.products (db s')
      = decrement_all items (SimulatedDatabase.products (db s)) /\
      SimulatedDatabase.users (db s') = SimulatedDatabase.users (db s) /\
      SimulatedDatabase.orders (db s') = SimulatedDatabase.orders (db s) /\
      world s' = world s.
Proof.
  induction items as [|item items IH]; intros lines total s lines' total' s' Hrun.
  - cbn in Hrun. injection Hrun as <- <- <-. exists []. rewrite app_nil_r. cbn. auto 10.
  - cbn [order_loop] in Hrun. unfold bind in Hrun. rewrite order_item_run in Hrun.
    destruct (Py.next (is_item item) _) as [product|] eqn:Hnext; [|discriminate].
    destruct (_ <? _) eqn:Hstock; [discriminate|].
    destruct (Py.float_of_int _) as [f|] eqn:Hf; [|discriminate].
    apply float_of_int_some in Hf. subst f.
    apply IH in Hrun. destruct Hrun as (new & -> & Hlines & -> & Hps & Hus & Hos & Hw).
    eexists (_ :: new). rewrite <- app_assoc. split; [reflexivity|].
    split; [|split; [reflexivity|cbn in *; auto]].
    cbn [lines_of]. split; [|exact Hlines].
    unfold line_of. cbn. repeat split. exists product. auto.
Qed.

(** Whatever its outcome, the loop touches neither the users, nor the
    orders, nor the ambient world. *)
Lemma order_loop_frame (items : list OrderItem.t) :
  forall acc s,
    let s' := snd (order_loop items acc s) in
    SimulatedDatabase.users (db s') = SimulatedDatabase.users (db s) /\
    SimulatedDatabase.orders (db s') = SimulatedDatabase.orders (db s) /\
    world s' = world s.
Proof.
  induction items as [|item items IH]; intros acc s; cbn; [auto|].
  unfold bind. pose proof (order_item_frame item acc s) as Hf. cbn in Hf.
  destruct (order_item item acc s) as [[acc'|e] s1]; cbn in Hf.
  - specialize (IH acc' s1). cbn in IH.
    destruct Hf as (Hu & Ho & Hw), IH as (Hu' & Ho' & Hw').
    rewrite Hu', Ho', Hw'. auto.
  - cbn. exact Hf.
Qed.

Lemma order_loop_app (pre rest : list OrderItem.t) :
  forall acc s,
    order_loop (pre ++ rest) acc s
    = bind (order_loop pre acc) (fun acc' => order_loop rest acc') s.
Proof.
  induction pre as [|item pre IH]; intros acc s; [reflexivity|].
  cbn [order_loop app]. unfold bind.
  destruct (order_item item acc s) as [[acc'|e] s1]; [|reflexivity].
  rewrite IH. reflexivity.
Qed.

Lemma order_item_error (item : OrderItem.t) (acc : list LineItem.t * float)
    (s : State) (e : Exn) :
  item_error item (SimulatedDatabase.products (db s)) e ->
  order_item item acc s = (Raise e, s).
Proof.
  destruct acc as [lines total]. rewrite order_item_run.
  intros [Hnone|product Hsome Hlt].
  - now rewrite Hnone.
  - rewrite Hsome. apply Z.ltb_lt in Hlt. now rewrite Hlt.
Qed.

(** C1: for an order of an existing user, when the items before [item]
    have been processed and [item] fails, because its product id resolves to
    no product or because the stock of its product is below the requested
    quantity, the call raises the typed error of that item, the orders are
    those of the start, and the products are left with the decrements of the
    earlier items applied. *)
Theorem create_order_no_rollback (order_data : OrderData.t) (u : User.t)
    (pre post : list OrderItem.t) (item : OrderItem.t)
    (acc1 : list LineItem.t * float) (s s1 : State) (e : Exn) :
  In u (SimulatedDatabase.users (db s)) ->
  OrderData.user_id order_data = Some (User.id u) ->
  OrderData.products order_data = Some (pre ++ item :: post) ->
  order_loop pre ([], 0%float) s = (Ok acc1, s1) ->
  item_error item (SimulatedDatabase.products (db s1)) e ->
  create_order order_data s = (Raise e, s1) /\
  SimulatedDatabase.orders (db s1) = SimulatedDatabase.orders (db s) /\
  SimulatedDatabase.products (db s1)
  = decrement_all pre (SimulatedDatabase.products (db s)).
Proof.
  intros Hin Hid Hitems Hpre Herr. split.
  - destruct (next_user order_data _ u Hin Hid) as (user & Huser & _).
    unfold create_order, bind at 1, get_db.
    change (fun u => Py.eq_opt (User.id u) _) with (is_user order_data).
    rewrite Huser, Hitems. unfold bind at 1.
    rewrite order_loop_app. unfold bind at 1. rewrite Hpre.
    cbn [order_loop]. unfold bind at 1.
    now rewrite (order_item_error item acc1 s1 e Herr).
  - destruct acc1 as [lines total].
    apply order_loop_ok in Hpre.
    destruct Hpre as (new & _ & _ & _ & Hps & _ & Hos & _). auto.
Qed.

Lemma create_order_no_rollback_witness :
  let order_data :=
    OrderData.mk (Some "user_001")
      (Some [OrderItem.mk (Some "prod_001") (Some 3);
             OrderItem.mk (Some "prod_002") (Some 30)]) in
  fst (create_order order_data seeded)
  = Raise (HTTPException 400 "Insufficient stock for Coffee Maker") /\
  SimulatedDatabase.orders (db (snd (create_order order_data seeded))) = [] /\
  map Product.stock_quantity
    (SimulatedDatabase.products (db (snd (create_order order_data seeded))))
  = [47; 25; 100].
Proof.
  intros order_data.
  pose (pre := [OrderItem.mk (Some "prod_001") (Some 3)]).
  pose (item := OrderItem.mk (Some "prod_002") (Some 30)).
  pose (s1 := snd (order_loop pre ([], 0%float) seeded)).
  destruct (create_order_no_rollback order_data
              (User.mk "user_001" "alice_w" "alice@example.com" ADMIN 1700000000 true)
              pre [] item
              ([LineItem.mk (Some "prod_001") "Wireless Headphones" 3
                  0x1.8ffae147ae148p+7%float 0x1.2bfc28f5c28f6p+9%float],
               0x1.2bfc28f5c28f6p+9%float)
              seeded s1
              (HTTPException 400 "Insufficient stock for Coffee Maker"))
    as (Hrun & Horders & Hproducts).
  - left. vm_compute. reflexivity.
  - reflexivity.
  - reflexivity.
  - unfold s1. rewrite (surjective_pairing (order_loop pre ([], 0%float) seeded)) at 1.
    f_equal; vm_compute; reflexivity.
  - apply (InsufficientStock item _
             (Product.mk "prod_002" "Coffee Maker" (Some "Programmable drip coffee maker")
                0x1.67f5c28f5c28fp+6%float "Home & Kitchen" true 25
                ["kitchen"; "appliance"; "coffee"])).
    + vm_compute. reflexivity.
    + vm_compute. reflexivity.
  - rewrite Hrun. cbn [fst snd]. split; [reflexivity|].
    split; [rewrite Horders; reflexivity|].
    rewrite Hproducts. vm_compute. reflexivity.
Defined.

(** ** The order transaction: successful calls *)

(** A call that returns has resolved the user, completed the loop, built
    the order from the loop's result with a fresh id and the time of the
    clock, and appended it. *)
Lemma create_order_ok (order_data : OrderData.t) (s s' : State) (resp : ApiResponse.t) :
  create_order order_data s = (Ok resp, s') ->
  exists user lines total s1 order,
    Py.next (is_user order_data) (SimulatedDatabase.users (db s)) = Some user /\
    order_loop (items_of order_data) ([], 0%float) s = (Ok (lines, total), s1) /\
    Order.user_id order = User.id user /\
    Order.products order = lines /\
    Order.total_amount order = total /\
    Order.status order = "confirmed" /\
    resp = ApiResponse.mk true "Order created successfully" (DDict (EOrder order))
             (ApiResponse.timestamp resp) /\
    db s' = SimulatedDatabase.set_orders (db s1) (SimulatedDatabase.orders (db s1) ++ [order]).
Proof.
  unfold create_order, bind at 1, get_db.
  change (fun u => Py.eq_opt (User.id u) _) with (is_user order_data).
  fold (items_of order_data).
  destruct (Py.next (is_user order_data) _) as [user|]; [|discriminate].
  unfold bind at 1.
  destruct (order_loop _ _ s) as [[[lines total]|e] s1]; [|discriminate].
  cbn. intros H. injection H as <- <-.
  exists user, lines, total, s1. eexists. cbn. repeat split; reflexivity.
Qed.

(** C3: the order that a successful call returns has as [total_amount] the
    sum, taken in order, of price times quantity over its line items; each
    line item carries the quantity of its input item, 1 when the item has
    none, and the name and price of the product that its id resolved to when
    the item was processed, after the decrements of the items before it. *)
Theorem create_order_total (order_data : OrderData.t) (s s' : State)
    (resp : ApiResponse.t) :
  create_order order_data s = (Ok resp, s') ->
  exists order,
    ApiResponse.data resp = DDict (EOrder order) /\
    SimulatedDatabase.orders (db s') = SimulatedDatabase.orders (db s) ++ [order] /\
    Order.total_amount order = Py.fsum (map line_amount (Order.products order)) /\
    lines_of (SimulatedDatabase.products (db s)) (items_of order_data)
      (Order.products order).
Proof.
  intros Hrun. apply create_order_ok in Hrun.
  destruct Hrun as (user & lines & total & s1 & order & _ & Hloop & _ & Hl & Ht & _ & -> & Hdb).
  apply order_loop_ok in Hloop.
  destruct Hloop as (new & Hnew & Hlines & Htotal & _ & _ & Hos & _).
  cbn in Hnew. subst new. exists order. cbn. rewrite Hdb, Hl, Ht. cbn.
  rewrite Hos. auto.
Qed.

Lemma create_order_total_witness :
  let order_data :=
    OrderData.mk (Some "user_001")
      (Some [OrderItem.mk (Some "prod_001") (Some 3);
             OrderItem.mk (Some "prod_002") None]) in
  exists order,
    payload (fst (create_order order_data seeded)) = Some (DDict (EOrder order)) /\
    map LineItem.quantity (Order.products order) = [3; 1] /\
    Order.total_amount order = Py.fsum (map line_amount (Order.products order)) /\
    Order.total_amount order = 0x1.58fae147ae148p+9%float.
Proof.
  intros order_data.
  pose (lines :=
          [LineItem.mk (Some "prod_001") "Wireless Headphones" 3
             0x1.8ffae147ae148p+7%float 0x1.2bfc28f5c28f6p+9%float;
           LineItem.mk (Some "prod_002") "Coffee Maker" 1
             0x1.67f5c28f5c28fp+6%float 0x1.67f5c28f5c28fp+6%float]).
  pose (order := Order.mk "uuid-3" "user_001" lines 0x1.58fae147ae148p+9%float
                   "confirmed" 1700000004).
  pose (resp := ApiResponse.mk true "Order created successfully" (DDict (EOrder order))
                  1700000005).
  assert (Hrun : create_order order_data seeded
                 = (Ok resp, snd (create_order order_data seeded))).
  { rewrite (surjective_pairing (create_order order_data seeded)) at 1.
    f_equal; vm_compute; reflexivity. }
  destruct (create_order_total order_data seeded _ resp Hrun)
    as (order' & Hdata & _ & Htotal & _).
  cbn in Hdata. injection Hdata as <-.
  exists order. rewrite Hrun. cbn [fst payload ApiResponse.data resp].
  split; [reflexivity|]. split; [reflexivity|]. split; [exact Htotal|reflexivity].
Defined.

(** C9: with an existing user and no items, whether the list is empty or
    the key is missing, the call returns an order that has no line items, a
    zero total and the status "confirmed", appends it to the orders and
    changes no product. *)
Theorem create_order_empty (order_data : OrderData.t) (u : User.t) (s : State) :
  In u (SimulatedDatabase.users (db s)) ->
  OrderData.user_id order_data = Some (User.id u) ->
  OrderData.products order_data = None \/ OrderData.products order_data = Some [] ->
  exists order resp s',
    create_order order_data s = (Ok resp, s') /\
    ApiResponse.success resp = true /\
    ApiResponse.data resp = DDict (EOrder order) /\
    Order.user_id order = User.id u /\
    Order.products order = [] /\
    Order.total_amount order = 0%float /\
    Order.status order = "confirmed" /\
    SimulatedDatabase.orders (db s') = SimulatedDatabase.orders (db s) ++ [order] /\
    SimulatedDatabase.products (db s') = SimulatedDatabase.products (db s).
Proof.
  intros Hin Hid Hitems.
  destruct (next_user order_data _ u Hin Hid) as (user & Huser & Huid).
  assert (Hnil : items_of order_data = []).
  { unfold items_of. destruct Hitems as [-> | ->]; reflexivity. }
  unfold create_order, bind at 1, get_db.
  change (fun u => Py.eq_opt (User.id u) _) with (is_user order_data).
  fold (items_of order_data). rewrite Huser, Hnil. cbn.
  do 3 eexists. repeat split. exact Huid.
Qed.

Lemma create_order_empty_witness :
  exists order,
    payload (fst (create_order (OrderData.mk (Some "user_002") None) seeded))
    = Some (DDict (EOrder order)) /\
    Order.products order = [] /\ Order.total_amount order = 0%float /\
    Order.status order = "confirmed".
Proof.
  destruct (create_order_empty (OrderData.mk (Some "user_002") None)
              (User.mk "user_002" "bob_smith" "bob@example.com" USER 1700000001 true)
              seeded)
    as (order & resp & s' & Hrun & _ & Hdata & _ & Hl & Ht & Hs & _).
  - right. left. vm_compute. reflexivity.
  - reflexivity.
  - left. reflexivity.
  - exists order. rewrite Hrun. cbn [fst payload]. rewrite Hdata. auto.
Defined.

(** ** User insertion *)

Lemma existsb_field (f : User.t -> string) (user : User.t) (users : list User.t) :
  existsb (fun u => String.eqb (f u) (f user)) users = true
  <-> exists u, In u users /\ f u = f user.
Proof.
  rewrite existsb_exists. split; intros (u & Hu & He); exists u; split; auto;
    now apply String.eqb_eq.
Qed.

Lemma create_user_run (user : User.t) (s : State) :
  create_user user s =
  if existsb (fun u => String.eqb (User.username u) (User.username user))
       (SimulatedDatabase.users (db s))
  then (Raise (HTTPException 400 "Username already exists"), s)
  else if existsb (fun u => String.eqb (User.email u) (User.email user))
            (SimulatedDatabase.users (db s))
  then (Raise (HTTPException 400 "Email already exists"), s)
  else
    (Ok (ApiResponse.mk true "User created successfully" (DDict (EUser user))
           (now_at (world s) (tick (world s)))),
     mkState
       (SimulatedDatabase.set_users (db s) (SimulatedDatabase.users (db s) ++ [user]))
       (advance (world s))).
Proof.
  unfold create_user, bind at 1, get_db.
  destruct (existsb _ _); [reflexivity|].
  destruct (existsb _ _); reflexivity.
Qed.

(** C5: a user whose username or email equals, character for character,
    that of a stored user is refused with status 400 and the state is left
    as it was; any other user is appended to the users and returned as the
    data of the response. *)
Theorem create_user_conflict (user : User.t) (s : State) :
  (conflicts user (SimulatedDatabase.users (db s)) ->
   exists detail, create_user user s = (Raise (HTTPException 400 detail), s)) /\
  (~ conflicts user (SimulatedDatabase.users (db s)) ->
   exists resp s',
     create_user user s = (Ok resp, s') /\
     ApiResponse.success resp = true /\
     ApiResponse.data resp = DDict (EUser user) /\
     SimulatedDatabase.users (db s') = SimulatedDatabase.users (db s) ++ [user] /\
     SimulatedDatabase.products (db s') = SimulatedDatabase.products (db s) /\
     SimulatedDatabase.orders (db s') = SimulatedDatabase.orders (db s)).
Proof.
  rewrite create_user_run. unfold conflicts.
  destruct (existsb (fun u => String.eqb (User.username u) (User.username user)) _)
    eqn:Hname.
  { split; [intros _; eexists; reflexivity|].
    intros Hno. exfalso. apply Hno.
    apply (existsb_field User.username) in Hname.
    destruct Hname as (u & Hu & He). exists u. auto. }
  destruct (existsb (fun u => String.eqb (User.email u) (User.email user)) _)
    eqn:Hmail.
  { split; [intros _; eexists; reflexivity|].
    intros Hno. exfalso. apply Hno.
    apply (existsb_field User.email) in Hmail.
    destruct Hmail as (u & Hu & He). exists u. auto. }
  split.
  - intros (u & Hu & [He|He]).
    + assert (existsb (fun u => String.eqb (User.username u) (User.username user))
                (SimulatedDatabase.users (db s)) = true) as Habs
          by (apply (existsb_field User.username); exists u; auto).
      congruence.
    + assert (existsb (fun u => String.eqb (User.email u) (User.email user))
                (SimulatedDatabase.users (db s)) = true) as Habs
          by (apply (existsb_field User.email); exists u; auto).
      congruence.
  - intros _. cbn. do 2 eexists. repeat split.
Qed.

Lemma create_user_conflict_witness :
  (exists detail,
     create_user (User.mk "u-1" "alice_w" "other@example.com" USER 7 true) seeded
     = (Raise (HTTPException 400 detail), seeded)) /\
  (exists resp,
     fst (create_user (User.mk "u-2" "Alice_W" "ALICE@example.com" USER 7 true) seeded)
     = Ok resp /\
     ApiResponse.data resp
     = DDict (EUser (User.mk "u-2" "Alice_W" "ALICE@example.com" USER 7 true))).
Proof.
  split.
  - apply (create_user_conflict (User.mk "u-1" "alice_w" "other@example.com" USER 7 true)
             seeded).
    exists (User.mk "user_001" "alice_w" "alice@example.com" ADMIN 1700000000 true).
    split; [vm_compute; auto|left; reflexivity].
  - destruct (create_user_conflict
                (User.mk "u-2" "Alice_W" "ALICE@example.com" USER 7 true) seeded)
      as (_ & Hfresh).
    destruct Hfresh as (resp & s' & Hrun & _ & Hdata & _).
    + intros (u & Hu & He). vm_compute in Hu.
      destruct Hu as [<-|[<-|[<-|[]]]]; cbn in He; destruct He; discriminate.
    + exists resp. rewrite Hrun. auto.
Defined.

(** ** The product listing *)

Lemma filter_and {A} (f g : A -> bool) (l : list A) :
  filter g (filter f l) = filter (fun x => f x && g x) l.
Proof.
  induction l as [|x l IH]; cbn; [reflexivity|].
  destruct (f x); cbn; [destruct (g x)|]; now rewrite IH.
Qed.

Lemma filter_all {A} (l : list A) : filter (fun _ => true) l = l.
Proof. induction l as [|x l IH]; cbn; [reflexivity|now rewrite IH]. Qed.

(** The chain of filters is one filter by the conjunction of the predicates
    that are supplied; the order of the store is kept. *)
Lemma filter_products_spec (lower : string -> string) (category : option string)
    (min_price max_price : option float) (in_stock : bool) (tag : option string)
    (products : list Product.t) :
  filter_products lower category min_price max_price in_stock tag products
  = filter
      (listing_predicate lower (supplied category) min_price max_price in_stock
         (supplied tag))
      products.
Proof.
  unfold filter_products.
  set (fc := fun p => match supplied category with
                      | Some c => String.eqb (lower (Product.category p)) (lower c)
                      | None => true
                      end).
  set (fmin := fun p => match min_price with
                        | Some m => PrimFloat.leb m (Product.price p) | None => true end).
  set (fmax := fun p => match max_price with
                        | Some m => PrimFloat.leb (Product.price p) m | None => true end).
  set (fs := fun p => if in_stock
                      then Product.in_stock p && (0 <? Product.stock_quantity p)
                      else true).
  set (ft := fun p => match supplied tag with
                      | Some t => existsb (String.eqb (lower t)) (map lower (Product.tags p))
                      | None => true
                      end).
  transitivity (filter ft (filter fs (filter fmax (filter fmin (filter fc products))))).
  - assert (Hc : match category with
                 | Some c =>
                   if Py.truthy category
                   then filter (fun p => String.eqb (lower (Product.category p)) (lower c))
                          products
                   else products
                 | None => products
                 end = filter fc products).
    { unfold fc, supplied. destruct category as [c|]; [|now rewrite filter_all].
      destruct (Py.truthy (Some c)); [reflexivity|now rewrite filter_all]. }
    rewrite Hc. clear Hc. generalize (filter fc products). intros l0.
    assert (Hmin : match min_price with
                   | Some m => filter (fun p => PrimFloat.leb m (Product.price p)) l0
                   | None => l0
                   end = filter fmin l0).
    { unfold fmin. destruct min_price; [reflexivity|now rewrite filter_all]. }
    rewrite Hmin. clear Hmin. generalize (filter fmin l0). intros l1.
    assert (Hmax : match max_price with
                   | Some m => filter (fun p => PrimFloat.leb (Product.price p) m) l1
                   | None => l1
                   end = filter fmax l1).
    { unfold fmax. destruct max_price; [reflexivity|now rewrite filter_all]. }
    rewrite Hmax. clear Hmax. generalize (filter fmax l1). intros l2.
    assert (Hs : (if in_stock
                  then filter (fun p => Product.in_stock p && (0 <? Product.stock_quantity p)) l2
                  else l2) = filter fs l2).
    { unfold fs. destruct in_stock; [reflexivity|now rewrite filter_all]. }
    rewrite Hs. clear Hs. generalize (filter fs l2). intros l3.
    unfold ft, supplied. destruct tag as [t|]; [|now rewrite filter_all].
    destruct (Py.truthy (Some t)); [reflexivity|now rewrite filter_all].
  - rewrite !filter_and. apply filter_ext. intros p.
    unfold listing_predicate, fc, fmin, fmax, fs, ft. now rewrite !andb_assoc.
Qed.

(** C6 as stated fails: an empty [category] is a supplied value, yet the
    listing does not filter by it.  On the seeded store the call with
    [category=""] returns the three products, none of which has an empty
    category. *)
Lemma get_products_empty_category_counterexample :
  payload (fst (get_products ascii_lower (Some "") None None true None seeded))
  <> Some (DList (map EProduct
                    (filter (listing_predicate ascii_lower (Some "") None None true None)
                       (SimulatedDatabase.products (db seeded))))).
Proof. vm_compute. discriminate. Qed.

(** C6, amended: the listing returns exactly the stored products, in the
    order of the store, that satisfy the conjunction of the supplied
    predicates: case-insensitive equality of the category, price at least
    [min_price], price at most [max_price], [in_stock] with a positive
    [stock_quantity] unless the caller passes [in_stock=False], and
    case-insensitive membership of the tag.  A category or tag that is absent
    or is the empty string imposes no constraint, as do absent prices.  The
    store is not changed. *)
Theorem get_products_listing (lower : string -> string) (category : option string)
    (min_price max_price : option float) (in_stock : bool) (tag : option string)
    (s : State) :
  exists resp,
    get_products lower category min_price max_price in_stock tag s
    = (Ok resp, mkState (db s) (advance (world s))) /\
    ApiResponse.success resp = true /\
    ApiResponse.data resp
    = DList (map EProduct
               (filter
                  (listing_predicate lower (supplied category) min_price max_price
                     in_stock (supplied tag))
                  (SimulatedDatabase.products (db s)))).
Proof.
  unfold get_products, bind, get_db, create_api_response, datetime_now, read_world, ret.
  cbn. eexists. split; [reflexivity|]. cbn. split; [reflexivity|].
  now rewrite filter_products_spec.
Qed.

(** Scenario D of the specification: "electronics" matches the stored
    category "Electronics". *)
Example get_products_scenario_D :
  payload (fst (get_products ascii_lower (Some "electronics") None None true None seeded))
  = Some (DList (map EProduct
                   (firstn 1 (SimulatedDatabase.products (db seeded))))).
Proof. vm_compute. reflexivity. Qed.

(** ** Reads *)

(** The reads return a response stamped with the clock and leave the
    database as it is. *)
Lemma get_users_run (role : option UserRole) (active_only : bool) (limit : Z) (s : State) :
  get_users role active_only limit s =
  let users := filter_users role active_only limit (SimulatedDatabase.users (db s)) in
  (Ok (ApiResponse.mk true
         ("Retrieved " ++ Py.str_of_nat (List.length users) ++ " users")%string
         (DList (map EUser users)) (now_at (world s) (tick (world s)))),
   mkState (db s) (advance (world s))).
Proof. reflexivity. Qed.

Lemma get_products_run (lower : string -> string) (category : option string)
    (min_price max_price : option float) (in_stock : bool) (tag : option string)
    (s : State) :
  get_products lower category min_price max_price in_stock tag s =
  let products :=
    filter_products lower category min_price max_price in_stock tag
      (SimulatedDatabase.products (db s)) in
  (Ok (ApiResponse.mk true
         ("Retrieved " ++ Py.str_of_nat (List.length products) ++ " products")%string
         (DList (map EProduct products)) (now_at (world s) (tick (world s)))),
   mkState (db s) (advance (world s))).
Proof. reflexivity. Qed.

Lemma get_user_run (user_id : string) (s : State) :
  get_user user_id s =
  match Py.next (fun u => String.eqb (User.id u) user_id) (SimulatedDatabase.users (db s)) with
  | None => (Raise (HTTPException 404 "User not found"), s)
  | Some user =>
    (Ok (ApiResponse.mk true "User retrieved successfully" (DDict (EUser user))
           (now_at (world s) (tick (world s)))),
     mkState (db s) (advance (world s)))
  end.
Proof. unfold get_user, bind, get_db. destruct (Py.next _ _); reflexivity. Qed.

Lemma get_product_run (product_id : string) (s : State) :
  get_product product_id s =
  match Py.next (fun p => String.eqb (Product.id p) product_id)
          (SimulatedDatabase.products (db s)) with
  | None => (Raise (HTTPException 404 "Product not found"), s)
  | Some product =>
    (Ok (ApiResponse.mk true "Product retrieved successfully" (DDict (EProduct product))
           (now_at (world s) (tick (world s)))),
     mkState (db s) (advance (world s)))
  end.
Proof. unfold get_product, bind, get_db. destruct (Py.next _ _); reflexivity. Qed.

Lemma get_order_run (order_id : string) (s : State) :
  get_order order_id s =
  match Py.next (fun o => String.eqb (Order.id o) order_id)
          (SimulatedDatabase.orders (db s)) with
  | None => (Raise (HTTPException 404 "Order not found"), s)
  | Some order =>
    (Ok (ApiResponse.mk true "Order retrieved successfully" (DDict (EOrder order))
           (now_at (world s) (tick (world s)))),
     mkState (db s) (advance (world s)))
  end.
Proof. unfold get_order, bind, get_db. destruct (Py.next _ _); reflexivity. Qed.

(** C8 as stated fails: the envelope of a response carries the time of the
    call.  Two listings of the users in a row, with the same arguments and
    the same database, return different responses. *)
Lemma get_users_twice_counterexample :
  let first := get_users None true 10 seeded in
  let second := get_users None true 10 (snd first) in
  db (snd first) = db seeded /\ fst first <> fst second.
Proof.
  cbv zeta. split; [reflexivity|].
  rewrite !get_users_run. vm_compute. discriminate.
Qed.

(** C8, amended: for the user listing, the product listing and the lookups
    of one user, product or order, two calls with the same arguments on the
    same database agree on the outcome: the same error, or responses with
    the same [success], [message] and [data]; only the [timestamp] of the
    envelope follows the clock.  None of these calls changes the database. *)
Theorem reads_agree_up_to_timestamp (lower : string -> string)
    (d : SimulatedDatabase.t) (w1 w2 : World) :
  let s1 := mkState d w1 in
  let s2 := mkState d w2 in
  (forall role active_only limit,
     same_payload (fst (get_users role active_only limit s1))
       (fst (get_users role active_only limit s2)) /\
     db (snd (get_users role active_only limit s1)) = d) /\
  (forall category min_price max_price in_stock tag,
     same_payload (fst (get_products lower category min_price max_price in_stock tag s1))
       (fst (get_products lower category min_price max_price in_stock tag s2)) /\
     db (snd (get_products lower category min_price max_price in_stock tag s1)) = d) /\
  (forall user_id,
     same_payload (fst (get_user user_id s1)) (fst (get_user user_id s2)) /\
     db (snd (get_user user_id s1)) = d) /\
  (forall product_id,
     same_payload (fst (get_product product_id s1)) (fst (get_product product_id s2)) /\
     db (snd (get_product product_id s1)) = d) /\
  (forall order_id,
     same_payload (fst (get_order order_id s1)) (fst (get_order order_id s2)) /\
     db (snd (get_order order_id s1)) = d).
Proof.
  cbv zeta. repeat split.
  - rewrite !get_user_run. cbn. destruct (Py.next _ _); cbn; auto.
  - rewrite get_user_run. cbn. destruct (Py.next _ _); reflexivity.
  - rewrite !get_product_run. cbn. destruct (Py.next _ _); cbn; auto.
  - rewrite get_product_run. cbn. destruct (Py.next _ _); reflexivity.
  - rewrite !get_order_run. cbn. destruct (Py.next _ _); cbn; auto.
  - rewrite get_order_run. cbn. destruct (Py.next _ _); reflexivity.
Qed.

(** ** The synthetic data generator *)

(** A body that always returns and keeps the database yields, after [n]
    rounds, [n] more records and the same database. *)
Lemma for_range_ok (body : M Entity) :
  (forall s, exists e s', body s = (Ok e, s') /\ db s' = db s) ->
  forall n random_data s,
    exists new s',
      for_range n body random_data s = (Ok (random_data ++ new), s') /\
      List.length new = n /\ db s' = db s.
Proof.
  intros Hbody. induction n as [|n IH]; intros random_data s.
  - exists [], s. cbn. now rewrite app_nil_r.
  - cbn. unfold bind. destruct (Hbody s) as (e & s1 & -> & Hdb).
    destruct (IH (random_data ++ [e]) s1) as (new & s' & -> & Hlen & Hdb').
    exists (e :: new), s'. rewrite <- app_assoc. cbn. split; [reflexivity|].
    split; [now rewrite Hlen|congruence].
Qed.

Lemma random_user_ok (lower : string -> string) (s : State) :
  exists e s', random_user lower s = (Ok e, s') /\ db s' = db s.
Proof.
  cbv beta iota zeta delta
    [random_user random_choice random_draw read_world bind ret User_new uuid4 datetime_now].
  do 2 eexists. split; reflexivity.
Qed.

Lemma random_product_ok (lower : string -> string) (s : State) :
  exists e s', random_product lower s = (Ok e, s') /\ db s' = db s.
Proof.
  cbv beta iota zeta delta
    [random_product random_choice random_randint random_price random_draw read_world
     bind ret Product_new uuid4].
  do 2 eexists. split; reflexivity.
Qed.

(** For "users" and "products" the generator returns as many records as
    [range(count)] has rounds and leaves the database as it is. *)
Lemma generate_random_data_count (lower : string -> string) (data_type : string)
    (count : Z) (s : State) :
  data_type = "users" \/ data_type = "products" ->
  exists resp s' records,
    generate_random_data lower data_type count s = (Ok resp, s') /\
    ApiResponse.data resp = DList records /\
    List.length records = Z.to_nat count /\
    db s' = db s.
Proof.
  intros Hty. unfold generate_random_data, bind at 1.
  destruct Hty as [-> | ->]; cbn [String.eqb Ascii.eqb Bool.eqb].
  - destruct (for_range_ok (random_user lower) (random_user_ok lower)
                (Z.to_nat count) [] s) as (new & s' & -> & Hlen & Hdb).
    cbn. do 3 eexists. repeat split; [exact Hlen|exact Hdb].
  - destruct (for_range_ok (random_product lower) (random_product_ok lower)
                (Z.to_nat count) [] s) as (new & s' & -> & Hlen & Hdb).
    cbn. do 3 eexists. repeat split; [exact Hlen|exact Hdb].
Qed.

(** C7, at the data type "orders" with a count of 5, both admitted by the
    declarations of the endpoint: the call reports "Generated 5 random
    orders" and returns no record at all.  The database is unchanged. *)
Theorem generate_random_data_orders (lower : string -> string) (s : State) :
  valid_data_type "orders" /\ valid_count 5 /\
  exists resp s',
    generate_random_data lower "orders" 5 s = (Ok resp, s') /\
    ApiResponse.success resp = true /\
    ApiResponse.message resp = "Generated 5 random orders" /\
    ApiResponse.data resp = DList [] /\
    db s' = db s.
Proof.
  split; [unfold valid_data_type; auto|]. split; [unfold valid_count; lia|].
  do 2 eexists. split; [reflexivity|]. cbn. auto.
Qed.

(** ** The stock invariant *)

Lemma initial_state_invariant (w : World) :
  Forall stock_invariant (SimulatedDatabase.products (db (initial_state w))).
Proof. repeat constructor. Qed.

(** The loop body keeps the invariant when the quantity of its item is not
    negative, whether it completes, fails its checks or overflows. *)
Lemma order_item_invariant (item : OrderItem.t) (acc : list LineItem.t * float)
    (s : State) :
  0 <= quantity_of item ->
  Forall stock_invariant (SimulatedDatabase.products (db s)) ->
  Forall stock_invariant (SimulatedDatabase.products (db (snd (order_item item acc s)))).
Proof.
  intros Hq Hinv. destruct acc as [lines total]. rewrite order_item_run.
  destruct (Py.next (is_item item) _) as [product|] eqn:Hnext; [|exact Hinv].
  destruct (Z.ltb_spec (Product.stock_quantity product) (quantity_of item)) as [_|Hge];
    [exact Hinv|].
  assert (Hdec : Forall stock_invariant
                   (decrement_item (SimulatedDatabase.products (db s)) item)).
  { apply update_first_Forall; [exact Hinv|].
    intros x Hx. rewrite Hnext in Hx. injection Hx as <-.
    apply decrement_invariant. lia. }
  destruct (Py.float_of_int _); exact Hdec.
Qed.

Lemma order_loop_invariant (items : list OrderItem.t) :
  forall acc s,
    Forall (fun item => 0 <= quantity_of item) items ->
    Forall stock_invariant (SimulatedDatabase.products (db s)) ->
    Forall stock_invariant
      (SimulatedDatabase.products (db (snd (order_loop items acc s)))).
Proof.
  induction items as [|item items IH]; intros acc s Hq Hinv; [exact Hinv|].
  inversion Hq as [|? ? Hq1 Hq2]; subst.
  cbn [order_loop]. unfold bind.
  pose proof (order_item_invariant item acc s Hq1 Hinv) as H1.
  destruct (order_item item acc s) as [[acc'|e] s1]; cbn in H1.
  - now apply IH.
  - exact H1.
Qed.

(** The two exits and the normal completion of [create_order]. *)
Lemma create_order_run (order_data : OrderData.t) (s : State) :
  create_order order_data s =
  match Py.next (is_user order_data) (SimulatedDatabase.users (db s)) with
  | None => (Raise (HTTPException 404 "User not found"), s)
  | Some user =>
    match order_loop (items_of order_data) ([], 0%float) s with
    | (Raise e, s1) => (Raise e, s1)
    | (Ok (lines, total), s1) =>
      let w := world s1 in
      let order :=
        Order.mk (uuid_at w (tick w)) (User.id user) lines total "confirmed"
          (now_at w (S (tick w))) in
      (Ok (ApiResponse.mk true "Order created successfully" (DDict (EOrder order))
             (now_at w (S (S (tick w))))),
       mkState
         (SimulatedDatabase.set_orders (db s1) (SimulatedDatabase.orders (db s1) ++ [order]))
         (advance (advance (advance w))))
    end
  end.
Proof.
  unfold create_order, bind at 1, get_db.
  change (fun u => Py.eq_opt (User.id u) _) with (is_user order_data).
  fold (items_of order_data).
  destruct (Py.next (is_user order_data) _) as [user|]; [|reflexivity].
  unfold bind at 1.
  destruct (order_loop _ _ s) as [[[lines total]|e] s1]; reflexivity.
Qed.

(** The products that a call of [create_order] leaves are those that its
    loop leaves, or those of the start when the user is unknown. *)
Lemma create_order_products (order_data : OrderData.t) (s : State) :
  SimulatedDatabase.products (db (snd (create_order order_data s)))
  = SimulatedDatabase.products (db s) \/
  SimulatedDatabase.products (db (snd (create_order order_data s)))
  = SimulatedDatabase.products
      (db (snd (order_loop (items_of order_data) ([], 0%float) s))).
Proof.
  rewrite create_order_run.
  destruct (Py.next _ _) as [user|]; [|left; reflexivity].
  right. destruct (order_loop _ _ s) as [[[lines total]|e] s1]; reflexivity.
Qed.

Lemma generate_random_data_db (lower : string -> string) (data_type : string)
    (count : Z) (s : State) :
  db (snd (generate_random_data lower data_type count s)) = db s.
Proof.
  unfold generate_random_data, bind at 1.
  destruct (String.eqb data_type "users").
  - destruct (for_range_ok (random_user lower) (random_user_ok lower)
                (Z.to_nat count) [] s) as (new & s' & -> & _ & Hdb). exact Hdb.
  - destruct (String.eqb data_type "products").
    + destruct (for_range_ok (random_product lower) (random_product_ok lower)
                 (Z.to_nat count) [] s) as (new & s' & -> & _ & Hdb). exact Hdb.
    + reflexivity.
Qed.

(** Every request whose quantities are not negative keeps the invariant. *)
Lemma handle_invariant (lower : string -> string) (r : Request) (s : State) :
  nonneg_request r ->
  Forall stock_invariant (SimulatedDatabase.products (db s)) ->
  Forall stock_invariant (SimulatedDatabase.products (db (snd (handle lower r s)))).
Proof.
  intros Hok Hinv. destruct r; cbn [handle].
  - exact Hinv.
  - rewrite get_user_run. destruct (Py.next _ _); exact Hinv.
  - rewrite create_user_run. repeat destruct (existsb _ _); exact Hinv.
  - exact Hinv.
  - rewrite get_product_run. destruct (Py.next _ _); exact Hinv.
  - destruct (create_order_products order_data s) as [-> | ->]; [exact Hinv|].
    now apply order_loop_invariant.
  - rewrite get_order_run. destruct (Py.next _ _); exact Hinv.
  - now rewrite generate_random_data_db.
Qed.

(** C2 as stated fails twice.  A product built with the defaults of the
    model is in stock with a stock of zero; and an order for a negative
    quantity raises the stock of a sold-out product while [in_stock] stays
    false: after an order for 50 and an order for -1 of "prod_001", the
    stored product has a stock of 1 and is not in stock. *)
Lemma stock_invariant_counterexample :
  ~ stock_invariant (Product.with_defaults "p-1" "Widget" 1%float "Tools") /\
  exists s p,
    reachable ascii_lower (fun _ => True) s /\
    In p (SimulatedDatabase.products (db s)) /\
    Product.stock_quantity p = 1 /\ Product.in_stock p = false /\
    ~ stock_invariant p.
Proof.
  split; [discriminate|].
  pose (order q := CreateOrder (OrderData.mk (Some "user_001")
                                  (Some [OrderItem.mk (Some "prod_001") (Some q)]))).
  exists (snd (handle ascii_lower (order (-1))
                 (snd (handle ascii_lower (order 50) (initial_state world0))))).
  exists (Product.mk "prod_001" "Wireless Headphones"
            (Some "Noise-cancelling wireless headphones")
            0x1.8ffae147ae148p+7%float "Electronics" false 1
            ["audio"; "wireless"; "tech"]).
  split; [repeat (apply reach_step; [|exact I]); apply reach_init|].
  split; [left; vm_compute; reflexivity|].
  split; [reflexivity|]. split; [reflexivity|discriminate].
Qed.

(** C2, amended: in every state reached from the seeded store by requests
    with well-typed order bodies whose items ask for integer quantities that
    are not negative, every stored product is in stock exactly when its stock
    is positive; and from such a state the processing of one more item of
    such a quantity, with the stock decrement it makes, keeps this so. *)
Theorem stock_invariant_reachable (lower : string -> string) (s : State) :
  reachable lower nonneg_request s ->
  Forall stock_invariant (SimulatedDatabase.products (db s)) /\
  forall item acc,
    0 <= quantity_of item ->
    Forall stock_invariant
      (SimulatedDatabase.products (db (snd (order_item item acc s)))).
Proof.
  intros Hreach.
  assert (Hinv : Forall stock_invariant (SimulatedDatabase.products (db s))).
  { induction Hreach as [w|s r _ IH Hok].
    - apply initial_state_invariant.
    - now apply handle_invariant. }
  split; [exact Hinv|].
  intros item acc Hq. now apply order_item_invariant.
Qed.

Lemma stock_invariant_reachable_witness :
  let s :=
    snd (handle ascii_lower
           (CreateOrder
              (OrderData.mk (Some "user_001")
                 (Some [OrderItem.mk (Some "prod_001") (Some 50);
                        OrderItem.mk (Some "prod_002") None])))
           (initial_state world0)) in
  map (fun p => (Product.stock_quantity p, Product.in_stock p))
    (SimulatedDatabase.products (db s))
  = [(0, false); (24, true); (100, true)] /\
  Forall stock_invariant (SimulatedDatabase.products (db s)).
Proof.
  cbv zeta. split; [vm_compute; reflexivity|].
  apply (stock_invariant_reachable ascii_lower).
  apply reach_step; [apply reach_init|].
  cbn. repeat constructor; cbn; lia.
Defined.

(** ** Signs in binary64 arithmetic *)

Lemma binary_round_aux_opp (s : bool) (m e : Z) (l : location) :
  binary_round_aux prec emax (negb s) m e l = SFopp (binary_round_aux prec emax s m e l).
Proof.
  unfold binary_round_aux.
  destruct (shr_fexp prec emax m e l) as [mrs e'].
  destruct (shr_fexp prec emax _ e' loc_Exact) as [mrs' e''].
  destruct (shr_m mrs'); [reflexivity| |reflexivity].
  destruct (e'' <=? emax - prec); reflexivity.
Qed.

Lemma SFmul_opp_r (x y : spec_float) :
  SFmul prec emax x (SFopp y) = SFopp (SFmul prec emax x y).
Proof.
  destruct x as [sx|sx| |sx mx ex], y as [sy|sy| |sy my ey]; cbn [SFmul SFopp];
    try reflexivity; try (now destruct sx, sy).
  rewrite <- binary_round_aux_opp. now destruct sx, sy.
Qed.

Lemma SFadd_opp_r (x y : spec_float) :
  SFadd prec emax x (SFopp y) = SFsub prec emax x y.
Proof.
  destruct x as [sx|sx| |sx mx ex], y as [sy|sy| |sy my ey]; cbn [SFadd SFsub SFopp];
    try reflexivity; now destruct sx, sy.
Qed.

(** [x * -y = -(x * y)] and [x + -y = x - y] hold exactly. *)
Lemma float_mul_opp_r (x y : float) :
  PrimFloat.mul x (PrimFloat.opp y) = PrimFloat.opp (PrimFloat.mul x y).
Proof.
  apply Prim2SF_inj.
  rewrite mul_spec, !opp_spec, mul_spec. apply SFmul_opp_r.
Qed.

Lemma float_add_opp_r (x y : float) :
  PrimFloat.add x (PrimFloat.opp y) = PrimFloat.sub x y.
Proof.
  apply Prim2SF_inj.
  rewrite add_spec, opp_spec, sub_spec. apply SFadd_opp_r.
Qed.

(** The conversion of a negative [int] is the opposite of the conversion of
    its absolute value. *)
Lemma Z2float_negative (z : Z) :
  z < 0 -> Py.Z2float z = PrimFloat.opp (Py.Z2float (Z.abs z)).
Proof.
  destruct z as [|p|p]; try lia. intros _.
  unfold Py.Z2float. cbn [Z.abs binary_normalize]. unfold binary_round.
  destruct (shl_align _ _ _) as [mz ez]. unfold binary_round_aux.
  destruct (shr_fexp prec emax (Z.pos mz) ez loc_Exact) as [mrs e'].
  destruct (shr_fexp prec emax _ e' loc_Exact) as [mrs' e''].
  destruct (shr_m mrs'); [reflexivity| |reflexivity].
  destruct (e'' <=? emax - prec); reflexivity.
Qed.

(** ** The order transaction: quantities that are not positive *)

(** C10 as stated fails for a negative quantity beyond the binary64 range:
    the stock check passes and the stock is raised, but the product
    [price * quantity] raises [OverflowError], so that no line is recorded,
    nothing is subtracted from a total and no order is made. *)
Lemma order_item_negative_overflow_counterexample :
  let item := OrderItem.mk (Some "prod_001") (Some (- 2 ^ 1024)) in
  let order_data := OrderData.mk (Some "user_001") (Some [item]) in
  quantity_of item < 0 /\
  (exists product,
     Py.next (is_item item) (SimulatedDatabase.products (db seeded)) = Some product /\
     quantity_of item <= Product.stock_quantity product) /\
  fst (order_item item ([], 0%float) seeded) = Raise OverflowError /\
  fst (create_order order_data seeded) = Raise OverflowError /\
  SimulatedDatabase.orders (db (snd (create_order order_data seeded))) = [] /\
  map Product.stock_quantity
    (SimulatedDatabase.products (db (snd (create_order order_data seeded))))
  = [50 + 2 ^ 1024; 25; 100].
Proof.
  cbv zeta. split; [reflexivity|]. split.
  - eexists. split; [vm_compute; reflexivity|]. vm_compute. discriminate.
  - repeat split; vm_compute; reflexivity.
Qed.

(** C10, amended: the loop body makes no positivity check.  For an item
    whose quantity is zero or negative, whose product id resolves and whose
    quantity does not exceed the stock, the body raises no HTTP error; the
    stock of the product becomes [stock_quantity - quantity], which is
    larger than before when the quantity is negative; and, when the
    conversion of the quantity to a float does not overflow, the body
    completes with a line for that quantity and adds [price * quantity] to
    the total, which for a negative quantity subtracts
    [price * |quantity|]. *)
Theorem order_item_nonpositive (item : OrderItem.t) (lines : list LineItem.t)
    (total : float) (s : State) (product : Product.t) (q : Z) :
  OrderItem.quantity item = Some q ->
  q <= 0 ->
  Py.next (is_item item) (SimulatedDatabase.products (db s)) = Some product ->
  q <= Product.stock_quantity product ->
  let r := order_item item (lines, total) s in
  (forall code detail, fst r <> Raise (HTTPException code detail)) /\
  Py.next (is_item item) (SimulatedDatabase.products (db (snd r)))
  = Some (decrement product q) /\
  Product.stock_quantity (decrement product q) = Product.stock_quantity product - q /\
  (q < 0 -> Product.stock_quantity product < Product.stock_quantity (decrement product q)) /\
  (Py.float_of_int q <> None ->
   exists line,
     fst r = Ok (lines ++ [line],
                 PrimFloat.add total (PrimFloat.mul (Product.price product) (Py.Z2float q))) /\
     LineItem.quantity line = q /\
     (q < 0 ->
      PrimFloat.add total (PrimFloat.mul (Product.price product) (Py.Z2float q))
      = PrimFloat.sub total
          (PrimFloat.mul (Product.price product) (Py.Z2float (Z.abs q))))).
Proof.
  intros Hq Hneg Hnext Hstock r.
  assert (Hqty : quantity_of item = q) by (unfold quantity_of; now rewrite Hq).
  assert (Hnext' : Py.next (is_item item) (decrement_item (SimulatedDatabase.products (db s)) item)
                   = Some (decrement product q)).
  { unfold decrement_item. rewrite <- Hqty.
    apply (next_update_first (is_item item) (fun p => decrement p (quantity_of item)));
      [exact Hnext|].
    apply next_some in Hnext. destruct Hnext as [_ Hid].
    unfold is_item in *. now rewrite decrement_id. }
  assert (Hrun : r = match Py.float_of_int q with
                     | None => (Raise OverflowError, decremented item s)
                     | Some f =>
                       (Ok (lines ++ [LineItem.mk (OrderItem.product_id item)
                                        (Product.name product) q (Product.price product)
                                        (PrimFloat.mul (Product.price product) f)],
                            PrimFloat.add total (PrimFloat.mul (Product.price product) f)),
                        decremented item s)
                     end).
  { unfold r. rewrite order_item_run, Hnext, Hqty.
    destruct (Z.ltb_spec (Product.stock_quantity product) q); [lia|reflexivity]. }
  rewrite Hrun. clear Hrun r.
  split; [destruct (Py.float_of_int q); cbn; intros code detail; discriminate|].
  split; [destruct (Py.float_of_int q); exact Hnext'|].
  rewrite decrement_stock. split; [reflexivity|]. split; [lia|].
  intros Hconv. destruct (Py.float_of_int q) as [f|] eqn:Hf; [|congruence].
  apply float_of_int_some in Hf. subst f.
  eexists. cbn [fst]. split; [reflexivity|]. split; [reflexivity|].
  intros Hlt. rewrite (Z2float_negative q Hlt), float_mul_opp_r, float_add_opp_r.
  reflexivity.
Qed.

Lemma order_item_nonpositive_witness :
  let item := OrderItem.mk (Some "prod_001") (Some (-2)) in
  let r := order_item item ([], 0%float) seeded in
  (forall code detail, fst r <> Raise (HTTPException code detail)) /\
  map Product.stock_quantity (SimulatedDatabase.products (db (snd r))) = [52; 25; 100] /\
  exists line,
    fst r = Ok ([line], (- 0x1.8ffae147ae148p+8)%float) /\
    LineItem.quantity line = -2.
Proof.
  cbv zeta.
  destruct (order_item_nonpositive (OrderItem.mk (Some "prod_001") (Some (-2))) []
              0%float seeded
              (Product.mk "prod_001" "Wireless Headphones"
                 (Some "Noise-cancelling wireless headphones")
                 0x1.8ffae147ae148p+7%float "Electronics" true 50
                 ["audio"; "wireless"; "tech"])
              (-2))
    as (Hno & _ & _ & _ & Htotal).
  - reflexivity.
  - lia.
  - vm_compute. reflexivity.
  - cbn. lia.
  - split; [exact Hno|]. split; [vm_compute; reflexivity|].
    destruct Htotal as (line & Hrun & Hqty & _); [vm_compute; discriminate|].
    exists line. split; [|exact Hqty].
    rewrite Hrun. repeat f_equal; vm_compute; reflexivity.
Defined.

(** * Further properties *)

(** ** What a request does to the store *)

(** The loop body leaves the state as it was or applies the decrement of
    its item, and then only when the stock check passed. *)
Lemma order_item_state (item : OrderItem.t) (acc : list LineItem.t * float) (s : State) :
  snd (order_item item acc s) = s \/
  exists product,
    Py.next (is_item item) (SimulatedDatabase.products (db s)) = Some product /\
    quantity_of item <= Product.stock_quantity product /\
    snd (order_item item acc s) = decremented item s.
Proof.
  destruct acc as [lines total]. rewrite order_item_run.
  destruct (Py.next (is_item item) _) as [product|] eqn:Hnext; [|left; reflexivity].
  destruct (Z.ltb_spec (Product.stock_quantity product) (quantity_of item)) as [_|Hge];
    [left; reflexivity|].
  right. exists product. split; [reflexivity|]. split; [lia|].
  destruct (Py.float_of_int _); reflexivity.
Qed.

(** A property of the products that every checked decrement keeps is kept
    by the loop, by [create_order] and by every request. *)
Section ProductsInduction.

Variable Q : list Product.t -> Prop.

Hypothesis Q_decrement :
  forall ps item product,
    Q ps ->
    Py.next (is_item item) ps = Some product ->
    quantity_of item <= Product.stock_quantity product ->
    Q (decrement_item ps item).

Lemma order_loop_products (items : list OrderItem.t) :
  forall acc s,
    Q (SimulatedDatabase.products (db s)) ->
    Q (SimulatedDatabase.products (db (snd (order_loop items acc s)))).
Proof.
  induction items as [|item items IH]; intros acc s HQ; [exact HQ|].
  cbn [order_loop]. unfold bind.
  assert (H1 : Q (SimulatedDatabase.products (db (snd (order_item item acc s))))).
  { destruct (order_item_state item acc s) as [-> | (product & Hnext & Hge & ->)];
      [exact HQ|].
    cbn. now apply (Q_decrement _ _ product). }
  destruct (order_item item acc s) as [[acc'|e] s1]; cbn in H1.
  - now apply IH.
  - exact H1.
Qed.

Lemma handle_products (lower : string -> string) (r : Request) (s : State) :
  Q (SimulatedDatabase.products (db s)) ->
  Q (SimulatedDatabase.products (db (snd (handle lower r s)))).
Proof.
  intros HQ. destruct r; cbn [handle].
  - exact HQ.
  - rewrite get_user_run. destruct (Py.next _ _); exact HQ.
  - rewrite create_user_run. repeat destruct (existsb _ _); exact HQ.
  - exact HQ.
  - rewrite get_product_run. destruct (Py.next _ _); exact HQ.
  - destruct (create_order_products order_data s) as [-> | ->]; [exact HQ|].
    now apply order_loop_products.
  - rewrite get_order_run. destruct (Py.next _ _); exact HQ.
  - now rewrite generate_random_data_db.
Qed.

Lemma handle_all_products (lower : string -> string) (requests : list Request) :
  forall s,
    Q (SimulatedDatabase.products (db s)) ->
    Q (SimulatedDatabase.products (db (handle_all lower requests s))).
Proof.
  unfold handle_all.
  induction requests as [|r requests IH]; intros s HQ; [exact HQ|].
  cbn. apply IH. now apply handle_products.
Qed.

End ProductsInduction.

Lemma Forall2_update_first {A} (R : A -> A -> Prop) (f : A -> bool) (g : A -> A)
    (l0 l : list A) :
  Forall2 R l0 l ->
  (forall x0 x, R x0 x -> Py.next f l = Some x -> R x0 (g x)) ->
  Forall2 R l0 (Py.update_first f g l).
Proof.
  unfold Py.next. induction 1 as [|x0 x l0 l Hx Hl IH]; cbn; intros Hg; [constructor|].
  destruct (f x) eqn:Hfx.
  - constructor; [now apply Hg|exact Hl].
  - constructor; [exact Hx|]. now apply IH.
Qed.

Lemma Forall2_refl {A} (R : A -> A -> Prop) (l : list A) :
  (forall x, R x x) -> Forall2 R l l.
Proof. intros HR. induction l; constructor; auto. Qed.

Lemma decrement_entry (p : Product.t) (q : Z) :
  catalogue_entry (decrement p q) = catalogue_entry p.
Proof. unfold catalogue_entry, decrement. cbn. destruct (_ =? _); reflexivity. Qed.

Lemma decrement_in_stock (p : Product.t) (q : Z) :
  Product.in_stock (decrement p q) = true -> Product.in_stock p = true.
Proof. unfold decrement. cbn. destruct (_ =? _); cbn; [discriminate|auto]. Qed.

(** ** Stock levels *)

Lemma decrement_sellable (p : Product.t) (q : Z) :
  q <= Product.stock_quantity p -> sellable (decrement p q).
Proof.
  intros Hq. unfold sellable. rewrite decrement_stock. split; [lia|].
  unfold decrement. cbn.
  destruct (Z.eqb_spec (Product.stock_quantity p - q) 0); cbn; [discriminate|lia].
Qed.

Lemma initial_state_sellable (w : World) :
  Forall sellable (SimulatedDatabase.products (db (initial_state w))).
Proof. repeat constructor; cbn; lia. Qed.

Lemma handle_sellable (lower : string -> string) (r : Request) (s : State) :
  Forall sellable (SimulatedDatabase.products (db s)) ->
  Forall sellable (SimulatedDatabase.products (db (snd (handle lower r s)))).
Proof.
  apply (handle_products (Forall sellable)).
  intros ps item product Hps Hnext Hge. unfold decrement_item.
  apply update_first_Forall; [exact Hps|].
  intros x Hx _. rewrite Hnext in Hx. injection Hx as <-.
  now apply decrement_sellable.
Qed.

Lemma reachable_sellable (lower : string -> string) (s : State) :
  reachable lower (fun _ => True) s ->
  Forall sellable (SimulatedDatabase.products (db s)).
Proof.
  induction 1 as [w|s r _ IH _]; [apply initial_state_sellable|now apply handle_sellable].
Qed.

(** X1: in every state reached from the seeded store by requests with
    well-typed order bodies, whatever the sign and the size of their integer
    quantities, no stored product has a negative stock, and a product flagged
    in stock has a positive stock. *)
Theorem stock_never_negative (lower : string -> string) (s : State) :
  reachable lower (fun _ => True) s ->
  Forall sellable (SimulatedDatabase.products (db s)).
Proof.
  induction 1 as [w|s r _ IH _].
  - apply initial_state_sellable.
  - now apply handle_sellable.
Qed.

Lemma stock_never_negative_witness :
  let order q :=
    CreateOrder (OrderData.mk (Some "user_001")
                   (Some [OrderItem.mk (Some "prod_001") (Some q)])) in
  let s := handle_all ascii_lower [order 50; order (-7); order 60] (initial_state world0) in
  map Product.stock_quantity (SimulatedDatabase.products (db s)) = [7; 25; 100] /\
  Forall sellable (SimulatedDatabase.products (db s)).
Proof.
  cbv zeta. split; [vm_compute; reflexivity|].
  apply (stock_never_negative ascii_lower).
  unfold handle_all. cbn [fold_left].
  repeat (apply reach_step; [|exact I]). apply reach_init.
Defined.

Lemma decrement_item_later (ps0 ps : list Product.t) (item : OrderItem.t) :
  Forall2 later_product ps0 ps -> Forall2 later_product ps0 (decrement_item ps item).
Proof.
  intros Hps. unfold decrement_item.
  apply Forall2_update_first; [exact Hps|].
  intros x0 x [Hentry Hflag] _. split.
  - now rewrite decrement_entry.
  - intros Hin. apply Hflag. now apply decrement_in_stock in Hin.
Qed.

Lemma Forall2_In_l {A B} (R : A -> B -> Prop) (l : list A) (l' : list B) :
  Forall2 R l l' -> Forall2 (fun x y => R x y /\ In x l) l l'.
Proof.
  induction 1 as [|x y l l' Hxy _ IH]; constructor.
  - split; [exact Hxy|now left].
  - eapply Forall2_impl; [|exact IH]. intros a b [Hab Hin]. split; [exact Hab|now right].
Qed.

(** X2: no sequence of requests adds, removes or reorders a product,
    changes the id, name, description, price, category or tags of one, or
    turns an [in_stock] flag back on: a product that was not in stock before
    is not in stock after. *)
Theorem catalogue_is_static (lower : string -> string) (requests : list Request)
    (s : State) :
  Forall2 later_product (SimulatedDatabase.products (db s))
    (SimulatedDatabase.products (db (handle_all lower requests s))).
Proof.
  apply (handle_all_products (Forall2 later_product (SimulatedDatabase.products (db s)))).
  - intros ps item product Hps _ _. now apply decrement_item_later.
  - apply Forall2_refl. intros x. split; auto.
Qed.

(** ** Users and orders are only appended *)

Lemma lines_of_subtotal (items : list OrderItem.t) :
  forall ps lines,
    lines_of ps items lines ->
    Forall (fun li => LineItem.subtotal li = line_amount li) lines.
Proof.
  induction items as [|item items IH]; intros ps [|li lines] H; cbn in H;
    try contradiction; constructor.
  - destruct H as [(_ & _ & product & _ & _ & _ & Hsub) _]. exact Hsub.
  - destruct H as [_ H]. now apply IH in H.
Qed.

(** A call of [create_order] never touches the users; when it raises, the
    orders are as before, and when it returns, it has appended the order it
    returns, which is well formed. *)
Lemma create_order_appends (order_data : OrderData.t) (s : State) :
  SimulatedDatabase.users (db (snd (create_order order_data s)))
  = SimulatedDatabase.users (db s) /\
  match fst (create_order order_data s) with
  | Raise _ =>
    SimulatedDatabase.orders (db (snd (create_order order_data s)))
    = SimulatedDatabase.orders (db s)
  | Ok resp =>
    exists order,
      ApiResponse.data resp = DDict (EOrder order) /\
      SimulatedDatabase.orders (db (snd (create_order order_data s)))
      = SimulatedDatabase.orders (db s) ++ [order] /\
      well_formed_order (SimulatedDatabase.users (db s)) order
  end.
Proof.
  rewrite create_order_run.
  destruct (Py.next (is_user order_data) _) as [user|] eqn:Huser; [|cbn; auto].
  pose proof (order_loop_frame (items_of order_data) ([], 0%float) s) as Hframe.
  cbn in Hframe.
  destruct (order_loop _ _ s) as [[[lines total]|e] s1] eqn:Hloop; cbn in Hframe;
    destruct Hframe as (Hus & Hos & _); [|cbn; auto].
  cbn. split; [exact Hus|]. eexists. split; [reflexivity|].
  split; [now rewrite Hos|].
  apply order_loop_ok in Hloop.
  destruct Hloop as (new & Hnew & Hlines & Htotal & _). cbn in Hnew. subst new.
  apply next_some in Huser. destruct Huser as [Hin _].
  unfold well_formed_order. cbn. split; [reflexivity|].
  split; [exists user; auto|]. split; [exact Htotal|].
  now apply lines_of_subtotal in Hlines.
Qed.

(** What one request does to the users and to the orders. *)
Lemma handle_users (lower : string -> string) (r : Request) (s : State) :
  SimulatedDatabase.users (db (snd (handle lower r s))) = SimulatedDatabase.users (db s) \/
  exists user,
    r = CreateUser user /\
    ~ conflicts user (SimulatedDatabase.users (db s)) /\
    SimulatedDatabase.users (db (snd (handle lower r s)))
    = SimulatedDatabase.users (db s) ++ [user].
Proof.
  destruct r; cbn [handle].
  - left; reflexivity.
  - left. rewrite get_user_run. destruct (Py.next _ _); reflexivity.
  - rewrite create_user_run.
    destruct (existsb (fun u => String.eqb (User.username u) (User.username user)) _)
      eqn:Hname; [left; reflexivity|].
    destruct (existsb (fun u => String.eqb (User.email u) (User.email user)) _)
      eqn:Hmail; [left; reflexivity|].
    right. exists user. split; [reflexivity|]. split; [|reflexivity].
    intros (u & Hu & [He|He]).
    + assert (existsb (fun u => String.eqb (User.username u) (User.username user))
                (SimulatedDatabase.users (db s)) = true) as Habs
          by (apply (existsb_field User.username); exists u; auto).
      congruence.
    + assert (existsb (fun u => String.eqb (User.email u) (User.email user))
                (SimulatedDatabase.users (db s)) = true) as Habs
          by (apply (existsb_field User.email); exists u; auto).
      congruence.
  - left; reflexivity.
  - left. rewrite get_product_run. destruct (Py.next _ _); reflexivity.
  - left. apply create_order_appends.
  - left. rewrite get_order_run. destruct (Py.next _ _); reflexivity.
  - left. now rewrite generate_random_data_db.
Qed.

Lemma handle_orders (lower : string -> string) (r : Request) (s : State) :
  SimulatedDatabase.orders (db (snd (handle lower r s))) = SimulatedDatabase.orders (db s) \/
  exists order order_data,
    r = CreateOrder order_data /\
    well_formed_order (SimulatedDatabase.users (db s)) order /\
    SimulatedDatabase.orders (db (snd (handle lower r s)))
    = SimulatedDatabase.orders (db s) ++ [order].
Proof.
  destruct r; cbn [handle].
  - left; reflexivity.
  - left. rewrite get_user_run. destruct (Py.next _ _); reflexivity.
  - left. rewrite create_user_run. repeat destruct (existsb _ _); reflexivity.
  - left; reflexivity.
  - left. rewrite get_product_run. destruct (Py.next _ _); reflexivity.
  - destruct (create_order_appends order_data s) as [_ H].
    destruct (fst (create_order order_data s)); [|left; exact H].
    destruct H as (order & _ & Hos & Hwf). right. exists order, order_data. auto.
  - left. rewrite get_order_run. destruct (Py.next _ _); reflexivity.
  - left. now rewrite generate_random_data_db.
Qed.

(** X3: no sequence of requests removes, reorders or alters a stored user
    or order: the users and the orders after it are those before it followed
    by new ones, at most one new record for each request. *)
Theorem users_and_orders_append_only (lower : string -> string)
    (requests : list Request) (s : State) :
  exists new_users new_orders,
    SimulatedDatabase.users (db (handle_all lower requests s))
    = SimulatedDatabase.users (db s) ++ new_users /\
    SimulatedDatabase.orders (db (handle_all lower requests s))
    = SimulatedDatabase.orders (db s) ++ new_orders /\
    (List.length new_users + List.length new_orders <= List.length requests)%nat.
Proof.
  unfold handle_all. revert s.
  induction requests as [|r requests IH]; intros s.
  - exists [], []. cbn. rewrite !app_nil_r. auto.
  - cbn [fold_left]. destruct (IH (snd (handle lower r s))) as (us & os & -> & -> & Hlen).
    destruct (handle_users lower r s) as [-> | (user & Hr & _ & ->)];
      destruct (handle_orders lower r s) as [-> | (order & order_data & Hr' & _ & ->)].
    + exists us, os. cbn. split; [reflexivity|]. split; [reflexivity|lia].
    + exists us, (order :: os). rewrite <- app_assoc. cbn.
      split; [reflexivity|]. split; [reflexivity|lia].
    + exists (user :: us), os. rewrite <- app_assoc. cbn.
      split; [reflexivity|]. split; [reflexivity|lia].
    + congruence.
Qed.

(** ** Uniqueness of usernames and emails *)

Lemma NoDup_snoc {A} (l : list A) (x : A) :
  NoDup l -> ~ In x l -> NoDup (l ++ [x]).
Proof.
  induction 1 as [|a l Ha Hl IH]; cbn; intros Hx.
  - constructor; [intros []|constructor].
  - constructor.
    + rewrite in_app_iff. cbn. intros [H|[H|[]]]; [contradiction|]. apply Hx. now left.
    + apply IH. intros H. apply Hx. now right.
Qed.

Lemma fresh_field (f : User.t -> string) (user : User.t) (users : list User.t) :
  (forall u, In u users -> f u <> f user) -> ~ In (f user) (map f users).
Proof.
  intros Hfresh Hin. apply in_map_iff in Hin. destruct Hin as (u & He & Hu).
  now apply (Hfresh u Hu).
Qed.

(** X4: in every state reached from the seeded store, no two stored users
    share a username and no two share an email. *)
Theorem usernames_and_emails_unique (lower : string -> string) (s : State) :
  reachable lower (fun _ => True) s ->
  NoDup (map User.username (SimulatedDatabase.users (db s))) /\
  NoDup (map User.email (SimulatedDatabase.users (db s))).
Proof.
  induction 1 as [w|s r _ [IHn IHm] _].
  - split; repeat constructor; cbn; intuition discriminate.
  - destruct (handle_users lower r s) as [-> | (user & _ & Hfresh & ->)]; [auto|].
    rewrite !map_app. cbn.
    split; apply NoDup_snoc; auto; apply fresh_field;
      intros u Hu He; apply Hfresh; exists u; auto.
Qed.

Lemma usernames_and_emails_unique_witness :
  let fresh := User.mk "u-9" "dora" "dora@example.com" USER 9 true in
  let again := User.mk "u-10" "dora" "other@example.com" USER 9 true in
  let s := handle_all ascii_lower [CreateUser fresh; CreateUser again]
             (initial_state world0) in
  map User.username (SimulatedDatabase.users (db s))
  = ["alice_w"; "bob_smith"; "charlie_b"; "dora"] /\
  NoDup (map User.username (SimulatedDatabase.users (db s))) /\
  NoDup (map User.email (SimulatedDatabase.users (db s))).
Proof.
  cbv zeta. split; [vm_compute; reflexivity|].
  apply (usernames_and_emails_unique ascii_lower).
  unfold handle_all. cbn [fold_left].
  repeat (apply reach_step; [|exact I]). apply reach_init.
Defined.

(** ** Stored orders *)

Lemma well_formed_order_more_users (users more : list User.t) (o : Order.t) :
  well_formed_order users o -> well_formed_order (users ++ more) o.
Proof.
  intros (Hs & (u & Hu & Hid) & Ht & Hl). split; [exact Hs|].
  split; [|auto]. exists u. split; [|exact Hid]. apply in_or_app. now left.
Qed.

(** X5: in every state reached from the seeded store, every stored order
    has the status "confirmed", the id of a stored user as [user_id], a
    [total_amount] that is the sum in order of price times quantity over its
    line items, and in every line item a subtotal that is its price times its
    quantity. *)
Theorem stored_orders_well_formed (lower : string -> string) (s : State) :
  reachable lower (fun _ => True) s ->
  Forall (well_formed_order (SimulatedDatabase.users (db s)))
    (SimulatedDatabase.orders (db s)).
Proof.
  induction 1 as [w|s r _ IH _]; [constructor|].
  assert (Hold : Forall (well_formed_order
                           (SimulatedDatabase.users (db (snd (handle lower r s)))))
                   (SimulatedDatabase.orders (db s))).
  { destruct (handle_users lower r s) as [-> | (user & _ & _ & ->)]; [exact IH|].
    eapply Forall_impl; [|exact IH]. intros o. apply well_formed_order_more_users. }
  destruct (handle_orders lower r s) as [-> | (order & order_data & Hr & Hwf & ->)];
    [exact Hold|].
  apply Forall_app. split; [exact Hold|]. constructor; [|constructor].
  destruct (handle_users lower r s) as [-> | (user & Hr' & _)]; [exact Hwf|congruence].
Qed.

Lemma stored_orders_well_formed_witness :
  let order q :=
    CreateOrder (OrderData.mk (Some "user_002")
                   (Some [OrderItem.mk (Some "prod_003") (Some q);
                          OrderItem.mk (Some "prod_002") None])) in
  let s := handle_all ascii_lower [order 2; order (-3); order 500] (initial_state world0) in
  List.length (SimulatedDatabase.orders (db s)) = 2%nat /\
  Forall (well_formed_order (SimulatedDatabase.users (db s)))
    (SimulatedDatabase.orders (db s)).
Proof.
  cbv zeta. split; [vm_compute; reflexivity|].
  apply (stored_orders_well_formed ascii_lower).
  unfold handle_all. cbn [fold_left].
  repeat (apply reach_step; [|exact I]). apply reach_init.
Defined.

(** ** Insertion followed by lookup *)

Lemma next_app {A} (f : A -> bool) (l l' : list A) :
  Py.next f (l ++ l')
  = match Py.next f l with Some x => Some x | None => Py.next f l' end.
Proof.
  unfold Py.next. induction l as [|a l IH]; cbn; [reflexivity|].
  destruct (f a); [reflexivity|exact IH].
Qed.

(** X6: [create_user] does not compare ids.  After a successful insertion,
    the lookup by the id of the new user returns the new user when no stored
    user had that id, and otherwise the first stored user that had it. *)
Theorem create_user_then_get_user (user : User.t) (s s' : State) (resp : ApiResponse.t) :
  create_user user s = (Ok resp, s') ->
  payload (fst (get_user (User.id user) s'))
  = Some (DDict (EUser
                   match Py.next (fun u => String.eqb (User.id u) (User.id user))
                           (SimulatedDatabase.users (db s)) with
                   | Some older => older
                   | None => user
                   end)).
Proof.
  rewrite create_user_run.
  destruct (existsb (fun u => String.eqb (User.username u) (User.username user)) _);
    [discriminate|].
  destruct (existsb (fun u => String.eqb (User.email u) (User.email user)) _);
    [discriminate|].
  intros H. injection H as _ <-.
  rewrite get_user_run. cbn [db SimulatedDatabase.users SimulatedDatabase.set_users].
  rewrite next_app.
  destruct (Py.next _ (SimulatedDatabase.users (db s))) as [older|]; [reflexivity|].
  unfold Py.next. cbn. now rewrite String.eqb_refl.
Qed.

Lemma create_user_then_get_user_witness :
  let shadowed := User.mk "user_001" "zed" "zed@example.com" GUEST 9 true in
  let s' := snd (create_user shadowed seeded) in
  exists alice,
    payload (fst (get_user "user_001" s')) = Some (DDict (EUser alice)) /\
    User.username alice = "alice_w" /\
    In shadowed (SimulatedDatabase.users (db s')).
Proof.
  cbv zeta.
  pose (shadowed := User.mk "user_001" "zed" "zed@example.com" GUEST 9 true).
  pose (resp := ApiResponse.mk true "User created successfully" (DDict (EUser shadowed))
                  1700000003).
  assert (Hrun : create_user shadowed seeded = (Ok resp, snd (create_user shadowed seeded))).
  { rewrite (surjective_pairing (create_user shadowed seeded)) at 1.
    f_equal; vm_compute; reflexivity. }
  pose proof (create_user_then_get_user shadowed seeded _ resp Hrun) as Hget.
  eexists. split; [exact Hget|]. split; [vm_compute; reflexivity|].
  vm_compute. auto 10.
Defined.

(** X7: after a successful [create_order], the lookup by the id of the
    order returned gives that order when no stored order had that id, and
    otherwise the first stored order that had it. *)
Theorem create_order_then_get_order (order_data : OrderData.t) (s s' : State)
    (resp : ApiResponse.t) (order : Order.t) :
  create_order order_data s = (Ok resp, s') ->
  ApiResponse.data resp = DDict (EOrder order) ->
  payload (fst (get_order (Order.id order) s'))
  = Some (DDict (EOrder
                   match Py.next (fun o => String.eqb (Order.id o) (Order.id order))
                           (SimulatedDatabase.orders (db s)) with
                   | Some older => older
                   | None => order
                   end)).
Proof.
  intros Hrun Hdata.
  pose proof (create_order_appends order_data s) as [_ Happ].
  rewrite Hrun in Happ. cbn [fst snd] in Happ.
  destruct Happ as (order' & Hdata' & Hos & _).
  assert (order' = order) by congruence. subst order'.
  rewrite get_order_run, Hos, next_app.
  destruct (Py.next _ (SimulatedDatabase.orders (db s))) as [older|]; [reflexivity|].
  unfold Py.next. cbn. now rewrite String.eqb_refl.
Qed.

Lemma create_order_then_get_order_witness :
  let order_data :=
    OrderData.mk (Some "user_003") (Some [OrderItem.mk (Some "prod_003") (Some 4)]) in
  let s' := snd (create_order order_data seeded) in
  exists order,
    payload (fst (create_order order_data seeded)) = Some (DDict (EOrder order)) /\
    payload (fst (get_order "uuid-3" s')) = Some (DDict (EOrder order)).
Proof.
  cbv zeta.
  pose (order_data :=
          OrderData.mk (Some "user_003") (Some [OrderItem.mk (Some "prod_003") (Some 4)])).
  pose (order :=
          Order.mk "uuid-3" "user_003"
            [LineItem.mk (Some "prod_003") "Yoga Mat" 4 0x1.dfd70a3d70a3dp+4%float
               0x1.dfd70a3d70a3dp+6%float]
            0x1.dfd70a3d70a3dp+6%float "confirmed" 1700000004).
  pose (resp := ApiResponse.mk true "Order created successfully" (DDict (EOrder order))
                  1700000005).
  assert (Hrun : create_order order_data seeded
                 = (Ok resp, snd (create_order order_data seeded))).
  { rewrite (surjective_pairing (create_order order_data seeded)) at 1.
    f_equal; vm_compute; reflexivity. }
  pose proof (create_order_then_get_order order_data seeded _ resp order Hrun eq_refl)
    as Hget.
  exists order. split; [vm_compute; reflexivity|exact Hget].
Defined.

(** ** The user listing *)

Lemma filter_users_spec (role : option UserRole) (active_only : bool) (limit : Z)
    (users : list User.t) :
  0 <= limit ->
  filter_users role active_only limit users
  = firstn (Z.to_nat limit) (filter (user_predicate role active_only) users).
Proof.
  intros Hlimit. unfold filter_users, Py.slice_to.
  destruct (Z.leb_spec 0 limit); [|lia]. f_equal.
  transitivity (filter (fun u => if active_only then User.is_active u else true)
                  (filter (fun u => match role with
                                    | Some r => UserRole_eqb (User.role u) r
                                    | None => true
                                    end) users)).
  - destruct role, active_only; rewrite ?filter_all; reflexivity.
  - rewrite filter_and. reflexivity.
Qed.

(** X8: for a limit that is not negative, the user listing returns the
    first [limit] of the stored users, in insertion order, that have the role
    asked for, when one is given, and are active, unless [active_only] is
    off; its message counts the users returned, which are at most [limit];
    the store is not changed. *)
Theorem get_users_listing (role : option UserRole) (active_only : bool) (limit : Z)
    (s : State) :
  0 <= limit ->
  let listing :=
    firstn (Z.to_nat limit)
      (filter (user_predicate role active_only) (SimulatedDatabase.users (db s))) in
  exists resp,
    get_users role active_only limit s = (Ok resp, mkState (db s) (advance (world s))) /\
    ApiResponse.success resp = true /\
    ApiResponse.data resp = DList (map EUser listing) /\
    ApiResponse.message resp
    = ("Retrieved " ++ Py.str_of_nat (List.length listing) ++ " users")%string /\
    Z.of_nat (List.length listing) <= limit.
Proof.
  intros Hlimit listing. rewrite get_users_run. cbv zeta.
  rewrite filter_users_spec by exact Hlimit. fold listing.
  eexists. split; [reflexivity|]. cbn. repeat split.
  unfold listing. rewrite length_firstn. lia.
Qed.

Lemma get_users_listing_witness :
  exists resp alice,
    fst (get_users (Some ADMIN) true 2 seeded) = Ok resp /\
    ApiResponse.data resp = DList [EUser alice] /\
    ApiResponse.message resp = "Retrieved 1 users".
Proof.
  destruct (get_users_listing (Some ADMIN) true 2 seeded) as (resp & Hrun & _ & Hdata & Hmsg & _);
    [lia|].
  exists resp. eexists. rewrite Hrun. split; [reflexivity|].
  split; [rewrite Hdata; vm_compute; reflexivity|].
  rewrite Hmsg. vm_compute. reflexivity.
Defined.

(** ** Lookups by id *)

Lemma next_by_id {A} (id : A -> string) (key : string) (l : list A) :
  match Py.next (fun x => String.eqb (id x) key) l with
  | None => forall x, In x l -> id x <> key
  | Some x => In x l /\ id x = key
  end.
Proof.
  destruct (Py.next _ l) as [x|] eqn:Hnext.
  - apply next_some in Hnext. destruct Hnext as [Hin He].
    apply String.eqb_eq in He. auto.
  - intros x Hx He. unfold Py.next in Hnext.
    apply (find_none _ _ Hnext) in Hx. apply String.eqb_neq in Hx. contradiction.
Qed.

(** X9: each lookup by id raises its "not found" error (404), with the
    state unchanged, when no stored record has the id, and otherwise returns
    a stored record that has it; the database is the same afterwards. *)
Theorem lookups_by_id (s : State) :
  (forall user_id,
     ((forall u, In u (SimulatedDatabase.users (db s)) -> User.id u <> user_id) /\
      get_user user_id s = (Raise (HTTPException 404 "User not found"), s)) \/
     (exists u,
        In u (SimulatedDatabase.users (db s)) /\ User.id u = user_id /\
        payload (fst (get_user user_id s)) = Some (DDict (EUser u)) /\
        db (snd (get_user user_id s)) = db s)) /\
  (forall product_id,
     ((forall p, In p (SimulatedDatabase.products (db s)) -> Product.id p <> product_id) /\
      get_product product_id s = (Raise (HTTPException 404 "Product not found"), s)) \/
     (exists p,
        In p (SimulatedDatabase.products (db s)) /\ Product.id p = product_id /\
        payload (fst (get_product product_id s)) = Some (DDict (EProduct p)) /\
        db (snd (get_product product_id s)) = db s)) /\
  (forall order_id,
     ((forall o, In o (SimulatedDatabase.orders (db s)) -> Order.id o <> order_id) /\
      get_order order_id s = (Raise (HTTPException 404 "Order not found"), s)) \/
     (exists o,
        In o (SimulatedDatabase.orders (db s)) /\ Order.id o = order_id /\
        payload (fst (get_order order_id s)) = Some (DDict (EOrder o)) /\
        db (snd (get_order order_id s)) = db s)).
Proof.
  split; [|split].
  - intros user_id. rewrite get_user_run.
    pose proof (next_by_id User.id user_id (SimulatedDatabase.users (db s))) as H.
    destruct (Py.next _ _) as [u|]; [right; exists u; cbn; tauto|left; auto].
  - intros product_id. rewrite get_product_run.
    pose proof (next_by_id Product.id product_id (SimulatedDatabase.products (db s))) as H.
    destruct (Py.next _ _) as [p|]; [right; exists p; cbn; tauto|left; auto].
  - intros order_id. rewrite get_order_run.
    pose proof (next_by_id Order.id order_id (SimulatedDatabase.orders (db s))) as H.
    destruct (Py.next _ _) as [o|]; [right; exists o; cbn; tauto|left; auto].
Qed.

(** ** What an order does to the stock *)

Lemma next_ext {A} (f g : A -> bool) (l : list A) :
  (forall x, f x = g x) -> Py.next f l = Py.next g l.
Proof.
  intros H. unfold Py.next. induction l as [|a l IH]; cbn; [reflexivity|].
  rewrite H, IH. reflexivity.
Qed.

Lemma next_update_first_other {A} (f h : A -> bool) (g : A -> A) (l : list A) :
  (forall x, h (g x) = h x) ->
  (forall x, f x = true -> h x = false) ->
  Py.next h (Py.update_first f g l) = Py.next h l.
Proof.
  intros Hg Hfh. unfold Py.next. induction l as [|a l IH]; cbn; [reflexivity|].
  destruct (f a) eqn:Hfa; cbn.
  - now rewrite Hg, (Hfh a Hfa).
  - now rewrite IH.
Qed.

Lemma has_id_decrement (product_id : string) (p : Product.t) (q : Z) :
  has_id product_id (decrement p q) = has_id product_id p.
Proof. unfold has_id. now rewrite decrement_id. Qed.

(** The decrement of one item moves the stock of the product that
    [product_id] finds by the quantity of the item when the item names that
    id, and leaves it alone otherwise. *)
Lemma decrement_item_stock (product_id : string) (item : OrderItem.t)
    (ps : list Product.t) (p : Product.t) :
  Py.next (has_id product_id) ps = Some p ->
  exists p',
    Py.next (has_id product_id) (decrement_item ps item) = Some p' /\
    Product.stock_quantity p'
    = Product.stock_quantity p
      - (if Py.eq_opt product_id (OrderItem.product_id item) then quantity_of item else 0).
Proof.
  intros Hnext. unfold decrement_item.
  destruct (Py.eq_opt product_id (OrderItem.product_id item)) eqn:Heq.
  - apply eq_opt_true in Heq.
    assert (Hsame : forall x, is_item item x = has_id product_id x).
    { intros x. unfold is_item, has_id. rewrite Heq. reflexivity. }
    exists (decrement p (quantity_of item)). split; [|apply decrement_stock].
    rewrite (next_ext _ _ _ (fun x => eq_sym (Hsame x))).
    apply (next_update_first (is_item item) (fun p => decrement p (quantity_of item))).
    + now rewrite (next_ext _ _ _ Hsame).
    + rewrite Hsame, has_id_decrement. apply next_some in Hnext. tauto.
  - exists p. split; [|lia].
    rewrite next_update_first_other; [exact Hnext| |].
    + intros x. apply has_id_decrement.
    + intros x Hx. unfold is_item in Hx. apply eq_opt_true in Hx.
      unfold has_id. destruct (String.eqb_spec (Product.id x) product_id) as [He|]; [|reflexivity].
      rewrite Hx, He in Heq. cbn in Heq. now rewrite String.eqb_refl in Heq.
Qed.

Lemma decrement_all_stock (product_id : string) (items : list OrderItem.t) :
  forall ps p,
    Py.next (has_id product_id) ps = Some p ->
    exists p',
      Py.next (has_id product_id) (decrement_all items ps) = Some p' /\
      Product.stock_quantity p'
      = Product.stock_quantity p - ordered_quantity product_id items.
Proof.
  unfold decrement_all.
  induction items as [|item items IH]; intros ps p Hnext; cbn.
  - exists p. split; [exact Hnext|lia].
  - destruct (decrement_item_stock product_id item ps p Hnext) as (p1 & Hnext1 & Hstock1).
    destruct (IH _ p1 Hnext1) as (p' & Hnext' & Hstock').
    exists p'. split; [exact Hnext'|lia].
Qed.

(** The loop applies the decrements of the items it reaches, in order: its
    final products are those of a prefix of the items, of all of them when
    it completes. *)
Lemma order_loop_prefix (items : list OrderItem.t) :
  forall acc s,
    exists k,
      (k <= List.length items)%nat /\
      SimulatedDatabase.products (db (snd (order_loop items acc s)))
      = decrement_all (firstn k items) (SimulatedDatabase.products (db s)) /\
      (forall acc', fst (order_loop items acc s) = Ok acc' -> k = List.length items).
Proof.
  induction items as [|item items IH]; intros acc s.
  - exists 0%nat. cbn. auto.
  - cbn [order_loop]. unfold bind.
    destruct acc as [lines total].
    pose proof (order_item_run item lines total s) as Hrun.
    destruct (Py.next (is_item item) _) as [product|].
    2:{ rewrite Hrun. exists 0%nat. cbn. split; [lia|]. split; [reflexivity|discriminate]. }
    destruct (_ <? _).
    { rewrite Hrun. exists 0%nat. cbn. split; [lia|]. split; [reflexivity|discriminate]. }
    destruct (Py.float_of_int _); rewrite Hrun.
    + destruct (IH (lines ++ [LineItem.mk (OrderItem.product_id item) (Product.name product)
                               (quantity_of item) (Product.price product)
                               (PrimFloat.mul (Product.price product) f)],
                    PrimFloat.add total (PrimFloat.mul (Product.price product) f))
                  (decremented item s)) as (k & Hk & Hps & Hok).
      exists (S k). cbn [List.length firstn]. split; [lia|]. split.
      * rewrite Hps. reflexivity.
      * intros acc' Hacc. f_equal. now apply (Hok acc').
    + exists 1%nat. cbn. split; [lia|]. split; [reflexivity|discriminate].
Qed.

(** X10: in a successful order, the stock of every product falls by the
    quantities that the items naming its id ask for, all added up, an item
    without a quantity counting for 1; products that no item names keep
    their stock. *)
Theorem create_order_stock (order_data : OrderData.t) (s s' : State)
    (resp : ApiResponse.t) (product_id : string) (p : Product.t) :
  create_order order_data s = (Ok resp, s') ->
  Py.next (has_id product_id) (SimulatedDatabase.products (db s)) = Some p ->
  exists p',
    Py.next (has_id product_id) (SimulatedDatabase.products (db s')) = Some p' /\
    Product.stock_quantity p'
    = Product.stock_quantity p - ordered_quantity product_id (items_of order_data).
Proof.
  intros Hrun Hnext. apply create_order_ok in Hrun.
  destruct Hrun as (user & lines & total & s1 & order & _ & Hloop & _ & _ & _ & _ & _ & Hdb).
  apply order_loop_ok in Hloop. destruct Hloop as (new & _ & _ & _ & Hps & _).
  rewrite Hdb. cbn. rewrite Hps. now apply decrement_all_stock.
Qed.

Lemma create_order_stock_witness :
  let order_data :=
    OrderData.mk (Some "user_001")
      (Some [OrderItem.mk (Some "prod_001") (Some 3);
             OrderItem.mk (Some "prod_002") None;
             OrderItem.mk (Some "prod_001") (Some 4)]) in
  exists p',
    Py.next (has_id "prod_001")
      (SimulatedDatabase.products (db (snd (create_order order_data seeded)))) = Some p' /\
    Product.stock_quantity p' = 50 - 7.
Proof.
  cbv zeta.
  pose (order_data :=
          OrderData.mk (Some "user_001")
            (Some [OrderItem.mk (Some "prod_001") (Some 3);
                   OrderItem.mk (Some "prod_002") None;
                   OrderItem.mk (Some "prod_001") (Some 4)])).
  destruct (fst (create_order order_data seeded)) as [resp|e] eqn:Hfst;
    [|vm_compute in Hfst; discriminate].
  assert (Hrun : create_order order_data seeded
                 = (Ok resp, snd (create_order order_data seeded))).
  { rewrite (surjective_pairing (create_order order_data seeded)) at 1. now rewrite Hfst. }
  exact (create_order_stock order_data seeded _ resp "prod_001"
           (Product.mk "prod_001" "Wireless Headphones"
              (Some "Noise-cancelling wireless headphones")
              0x1.8ffae147ae148p+7%float "Electronics" true 50
              ["audio"; "wireless"; "tech"])
           Hrun eq_refl).
Defined.

(** X11: whatever its outcome, a call of [create_order] leaves the users
    as they were and the products with the decrements of the first [k] items
    applied, for some [k]: all the items when the call returns.  When the call
    raises, the orders are as they were. *)
Theorem create_order_effect (order_data : OrderData.t) (s : State) :
  let s' := snd (create_order order_data s) in
  SimulatedDatabase.users (db s') = SimulatedDatabase.users (db s) /\
  (exists k,
     (k <= List.length (items_of order_data))%nat /\
     SimulatedDatabase.products (db s')
     = decrement_all (firstn k (items_of order_data)) (SimulatedDatabase.products (db s)) /\
     (forall resp, fst (create_order order_data s) = Ok resp ->
                   k = List.length (items_of order_data))) /\
  (forall e, fst (create_order order_data s) = Raise e ->
             SimulatedDatabase.orders (db s') = SimulatedDatabase.orders (db s)).
Proof.
  cbv zeta. split; [apply create_order_appends|]. split.
  - rewrite create_order_run.
    destruct (Py.next (is_user order_data) _) as [user|].
    2:{ exists 0%nat. cbn. split; [lia|]. split; [reflexivity|discriminate]. }
    destruct (order_loop_prefix (items_of order_data) ([], 0%float) s) as (k & Hk & Hps & Hok).
    exists k. split; [exact Hk|].
    destruct (order_loop _ _ s) as [[[lines total]|e] s1]; cbn in *.
    + split; [exact Hps|]. intros _ _. now apply (Hok (lines, total)).
    + split; [exact Hps|discriminate].
  - intros e He. pose proof (create_order_appends order_data s) as [_ H].
    now rewrite He in H.
Qed.

(** ** Failures are typed *)

Lemma order_loop_typed (items : list OrderItem.t) :
  Forall (fun item => Py.float_of_int (quantity_of item) <> None) items ->
  forall acc s,
    match fst (order_loop items acc s) with
    | Ok _ => True
    | Raise (HTTPException code _) => code = 400 \/ code = 404
    | Raise OverflowError => False
    end.
Proof.
  induction 1 as [|item items Hitem _ IH]; intros [lines total] s; [exact I|].
  cbn [order_loop]. unfold bind. rewrite order_item_run.
  destruct (Py.next (is_item item) _) as [product|]; [|cbn; auto].
  destruct (_ <? _); [cbn; auto|].
  destruct (Py.float_of_int (quantity_of item)); [apply IH|contradiction].
Qed.

(** X12: the bodies of the eight handlers that [handle] dispatches (the
    listings, the lookups, [create_user], [create_order] and the generator;
    not [simulate_error] and [get_statistics]), run on a request with a
    well-typed order body whose integer quantities all convert to a float,
    return a success or raise an HTTP error of status 400 or 404.  Of these
    eight only [create_order] carries quantities, so the condition is void
    for the seven others. *)
Theorem failures_are_typed (lower : string -> string) (r : Request) (s : State) :
  convertible_request r -> typed_outcome (fst (handle lower r s)).
Proof.
  intros Hconv. destruct r; cbn [handle].
  - reflexivity.
  - rewrite get_user_run. destruct (Py.next _ _); cbn; auto.
  - rewrite create_user_run. repeat destruct (existsb _ _); cbn; auto.
  - reflexivity.
  - rewrite get_product_run. destruct (Py.next _ _); cbn; auto.
  - rewrite create_order_run.
    destruct (Py.next (is_user order_data) _); [|cbn; auto].
    pose proof (order_loop_typed (items_of order_data) Hconv ([], 0%float) s) as H.
    destruct (order_loop _ _ s) as [[[lines total]|e] s1]; cbn in *; [reflexivity|exact H].
  - rewrite get_order_run. destruct (Py.next _ _); cbn; auto.
  - unfold generate_random_data, bind.
    destruct (String.eqb data_type "users").
    + destruct (for_range_ok (random_user lower) (random_user_ok lower)
                  (Z.to_nat count) [] s) as (new & s' & -> & _). reflexivity.
    + destruct (String.eqb data_type "products").
      * destruct (for_range_ok (random_product lower) (random_product_ok lower)
                    (Z.to_nat count) [] s) as (new & s' & -> & _). reflexivity.
      * reflexivity.
Qed.

Lemma failures_are_typed_witness :
  typed_outcome
    (fst (handle ascii_lower
            (CreateOrder (OrderData.mk (Some "user_001")
                            (Some [OrderItem.mk (Some "prod_001") (Some (-4));
                                   OrderItem.mk (Some "prod_404") (Some (10 ^ 30))])))
            seeded)).
Proof.
  apply failures_are_typed.
  unfold convertible_request, items_of. cbn [OrderData.products].
  constructor; [vm_compute; discriminate|].
  constructor; [vm_compute; discriminate|constructor].
Defined.

(** ** What the generator produces *)

Lemma choice_In {A} (d : A) (xs : list A) (k : nat) :
  In (nth (k mod S (List.length xs)) (d :: xs) d) (d :: xs).
Proof. apply nth_In. cbn [List.length]. now apply Nat.mod_upper_bound. Qed.

Lemma for_range_Forall (P : Entity -> Prop) (body : M Entity) :
  (forall s, exists e s', body s = (Ok e, s') /\ db s' = db s /\ P e) ->
  forall n random_data s,
    Forall P random_data ->
    exists records s',
      for_range n body random_data s = (Ok records, s') /\
      List.length records = (List.length random_data + n)%nat /\
      db s' = db s /\ Forall P records.
Proof.
  intros Hbody. induction n as [|n IH]; intros random_data s Hacc.
  - exists random_data, s. cbn. auto.
  - cbn. unfold bind. destruct (Hbody s) as (e & s1 & -> & Hdb & He).
    destruct (IH (random_data ++ [e]) s1) as (records & s' & -> & Hlen & Hdb' & Hall).
    { apply Forall_app. auto. }
    exists records, s'. split; [reflexivity|].
    rewrite Hlen, length_app. cbn. split; [lia|]. split; [congruence|exact Hall].
Qed.

Lemma random_product_generated (lower : string -> string) (s : State) :
  exists e s',
    random_product lower s = (Ok e, s') /\ db s' = db s /\
    exists p, e = EProduct p /\ generated_product p.
Proof.
  cbv beta iota zeta delta
    [random_product random_choice random_randint random_price random_draw read_world
     bind ret Product_new uuid4].
  do 2 eexists. split; [reflexivity|]. split; [reflexivity|].
  eexists. split; [reflexivity|].
  unfold generated_product, stock_invariant. cbn -[Z.modulo Nat.modulo nth In List.length].
  split; [reflexivity|]. split.
  - match goal with |- 0 <= ?k mod ?n <= 200 => pose proof (Z.mod_pos_bound k n) end. lia.
  - split; [apply choice_In|]. eexists. split; [reflexivity|apply choice_In].
Qed.

Lemma random_user_generated (lower : string -> string) (s : State) :
  exists e s',
    random_user lower s = (Ok e, s') /\ db s' = db s /\
    exists u, e = EUser u /\ generated_user lower u.
Proof.
  cbv beta iota zeta delta
    [random_user random_choice random_draw read_world bind ret User_new uuid4 datetime_now].
  do 2 eexists. split; [reflexivity|]. split; [reflexivity|].
  eexists. split; [reflexivity|].
  unfold generated_user. cbn -[Nat.modulo nth In List.length].
  do 3 eexists.
  refine (conj _ (conj _ (conj _ (conj eq_refl eq_refl)))); apply choice_In.
Qed.

(** X13: for the data type "products" and a count that is not negative,
    the generator returns [count] products; each has a stock between 0 and
    200, is in stock exactly when that stock is positive, has one of the six
    categories and carries one tag of the four; the database is unchanged. *)
Theorem generate_products_constraints (lower : string -> string) (count : Z) (s : State) :
  0 <= count ->
  exists resp s' records,
    generate_random_data lower "products" count s = (Ok resp, s') /\
    db s' = db s /\
    ApiResponse.data resp = DList records /\
    Z.of_nat (List.length records) = count /\
    Forall (fun e => exists p, e = EProduct p /\ generated_product p) records.
Proof.
  intros Hcount. unfold generate_random_data, bind at 1. cbn [String.eqb Ascii.eqb Bool.eqb].
  destruct (for_range_Forall _ (random_product lower) (random_product_generated lower)
              (Z.to_nat count) [] s (Forall_nil _))
    as (records & s' & -> & Hlen & Hdb & Hall).
  cbn. do 3 eexists. split; [reflexivity|]. cbn.
  split; [exact Hdb|]. split; [reflexivity|]. split; [|exact Hall].
  rewrite Hlen. cbn. lia.
Qed.

Lemma generate_products_constraints_witness :
  exists resp records,
    fst (generate_random_data ascii_lower "products" 3 seeded) = Ok resp /\
    ApiResponse.data resp = DList records /\
    Z.of_nat (List.length records) = 3 /\
    Forall (fun e => exists p, e = EProduct p /\ generated_product p) records.
Proof.
  destruct (generate_products_constraints ascii_lower 3 seeded)
    as (resp & s' & records & Hrun & _ & Hdata & Hlen & Hall); [lia|].
  exists resp, records. rewrite Hrun. auto.
Defined.

(** X14: for the data type "users" and a count that is not negative, the
    generator returns [count] users; each has as username a lower-cased first
    name and a lower-cased last name of the vocabularies joined by "_", and as
    email that username, "@" and one of the three domains; the database is
    unchanged. *)
Theorem generate_users_constraints (lower : string -> string) (count : Z) (s : State) :
  0 <= count ->
  exists resp s' records,
    generate_random_data lower "users" count s = (Ok resp, s') /\
    db s' = db s /\
    ApiResponse.data resp = DList records /\
    Z.of_nat (List.length records) = count /\
    Forall (fun e => exists u, e = EUser u /\ generated_user lower u) records.
Proof.
  intros Hcount. unfold generate_random_data, bind at 1. cbn [String.eqb Ascii.eqb Bool.eqb].
  destruct (for_range_Forall _ (random_user lower) (random_user_generated lower)
              (Z.to_nat count) [] s (Forall_nil _))
    as (records & s' & -> & Hlen & Hdb & Hall).
  cbn. do 3 eexists. split; [reflexivity|]. cbn.
  split; [exact Hdb|]. split; [reflexivity|]. split; [|exact Hall].
  rewrite Hlen. cbn. lia.
Qed.

Lemma generate_users_constraints_witness :
  exists resp records,
    fst (generate_random_data ascii_lower "users" 2 seeded) = Ok resp /\
    ApiResponse.data resp = DList records /\
    Z.of_nat (List.length records) = 2 /\
    Forall (fun e => exists u, e = EUser u /\ generated_user ascii_lower u) records.
Proof.
  destruct (generate_users_constraints ascii_lower 2 seeded)
    as (resp & s' & records & Hrun & _ & Hdata & Hlen & Hall); [lia|].
  exists resp, records. rewrite Hrun. auto.
Defined.

(** ** The error simulator *)

(** X15: [simulate_error] never returns: in every state it raises an HTTP
    error whose status and detail are one of the six pairs of its table, and
    it leaves the database as it is. *)
Theorem simulate_error_always_raises (s : State) :
  exists code detail s',
    simulate_error s = (Raise (HTTPException code detail), s') /\
    In (code, detail) error_types /\
    db s' = db s.
Proof.
  cbv beta iota zeta delta [simulate_error random_choice random_draw read_world bind ret raise].
  do 3 eexists. split; [reflexivity|]. split; [|reflexivity].
  rewrite <- surjective_pairing. apply choice_In.
Qed.

(** ** Statistics *)

Section StatisticsProperties.

Variable builtin_sum : list float -> float.

Lemma inventory_values_ok (products : list Product.t) (s : State) :
  Forall (fun p => Py.float_of_int (Product.stock_quantity p) <> None) products ->
  inventory_values products s = (Ok (map inventory_value products), s).
Proof.
  induction 1 as [|p products Hp _ IH]; [reflexivity|].
  cbn [inventory_values map]. unfold bind, float_mul_int.
  destruct (Py.float_of_int (Product.stock_quantity p)) as [f|] eqn:Hf; [|contradiction].
  apply float_of_int_some in Hf. subst f. cbn. rewrite IH. reflexivity.
Qed.

Lemma inventory_values_overflow (products : list Product.t) (s : State) :
  (exists p, In p products /\ Py.float_of_int (Product.stock_quantity p) = None) ->
  inventory_values products s = (Raise OverflowError, s).
Proof.
  induction products as [|a products IH]; intros (p & Hin & Hp); [contradiction|].
  cbn [inventory_values]. unfold bind, float_mul_int.
  destruct (Py.float_of_int (Product.stock_quantity a)) as [f|] eqn:Hf; [|reflexivity].
  cbn. rewrite IH; [reflexivity|].
  destruct Hin as [->|Hin]; [congruence|]. exists p. auto.
Qed.

Lemma recent_run (orders : list Order.t) :
  forall s,
    exists l s',
      recent orders s = (Ok l, s') /\ db s' = db s /\
      (List.length l <= List.length orders)%nat /\
      Forall (fun o => In o orders) l.
Proof.
  induction orders as [|o orders IH]; intros s.
  - exists [], s. cbn. auto.
  - cbn [recent]. unfold bind at 1, datetime_now, read_world.
    destruct (IH (mkState (db s) (advance (world s)))) as (l & s' & Hrun & Hdb & Hlen & Hall).
    unfold bind. rewrite Hrun. cbn.
    assert (Hall' : Forall (fun x => In x (o :: orders)) l).
    { eapply Forall_impl; [|exact Hall]. intros x Hx. now right. }
    destruct (_ <? 7).
    + exists (o :: l), s'. cbn. split; [reflexivity|]. split; [exact Hdb|].
      split; [lia|]. constructor; [now left|exact Hall'].
    + exists l, s'. cbn. split; [reflexivity|]. split; [exact Hdb|].
      split; [lia|exact Hall'].
Qed.

(** X16: [get_statistics] raises [OverflowError], with the state
    unchanged, when the stock of some product does not convert to a float.
    When every stock converts, it returns the numbers of users, products
    and orders, the numbers of active users and of products flagged in stock,
    neither above its total, the sum of price times stock over the products,
    and a number of recent orders that is at most the number of orders; the
    database is unchanged. *)
Theorem get_statistics_outcome (s : State) :
  let d := db s in
  ((exists p, In p (SimulatedDatabase.products d) /\
              Py.float_of_int (Product.stock_quantity p) = None) ->
   get_statistics builtin_sum s = (Raise OverflowError, s)) /\
  (Forall (fun p => Py.float_of_int (Product.stock_quantity p) <> None)
     (SimulatedDatabase.products d) ->
   exists resp s',
     get_statistics builtin_sum s = (Ok resp, s') /\
     db s' = d /\
     StatisticsResponse.success resp = true /\
     let stats := StatisticsResponse.data resp in
     Statistics.total_users stats = List.length (SimulatedDatabase.users d) /\
     Statistics.total_products stats = List.length (SimulatedDatabase.products d) /\
     Statistics.total_orders stats = List.length (SimulatedDatabase.orders d) /\
     Statistics.active_users stats
     = List.length (filter User.is_active (SimulatedDatabase.users d)) /\
     (Statistics.active_users stats <= Statistics.total_users stats)%nat /\
     Statistics.in_stock_products stats
     = List.length (filter Product.in_stock (SimulatedDatabase.products d)) /\
     (Statistics.in_stock_products stats <= Statistics.total_products stats)%nat /\
     Statistics.total_inventory_value stats
     = py_sum builtin_sum (map inventory_value (SimulatedDatabase.products d)) /\
     (Statistics.recent_orders stats <= Statistics.total_orders stats)%nat).
Proof.
  cbv zeta. split.
  - intros Hbad. unfold get_statistics, bind at 1, get_db. unfold bind at 1.
    now rewrite inventory_values_overflow.
  - intros Hgood. unfold get_statistics, bind at 1, get_db. unfold bind at 1.
    rewrite inventory_values_ok by exact Hgood. unfold bind at 1.
    destruct (recent_run (SimulatedDatabase.orders (db s)) s) as (l & s' & -> & Hdb & Hlen & _).
    cbn. do 2 eexists. split; [reflexivity|]. cbn.
    split; [exact Hdb|]. repeat split; try exact Hlen; apply filter_length_le.
Qed.

(** X17: in every state reached from the seeded store by requests with
    well-typed order bodies, whose quantities are integers, the number of
    in-stock products that the statistics report is the number of products
    that the product listing returns when called without any filter. *)
Theorem statistics_agree_with_listing (lower : string -> string) (s s' : State)
    (resp : StatisticsResponse.t) :
  reachable lower (fun _ => True) s ->
  get_statistics builtin_sum s = (Ok resp, s') ->
  exists records,
    payload (fst (get_products lower None None None true None s)) = Some (DList records) /\
    List.length records = Statistics.in_stock_products (StatisticsResponse.data resp).
Proof.
  intros Hreach Hstats.
  pose proof (reachable_sellable lower s Hreach) as Hinv.
  rewrite get_products_run. cbn. eexists. split; [reflexivity|].
  rewrite length_map.
  assert (Hcount : Statistics.in_stock_products (StatisticsResponse.data resp)
                   = List.length (filter Product.in_stock (SimulatedDatabase.products (db s)))).
  { revert Hstats. unfold get_statistics, bind at 1, get_db. unfold bind at 1.
    destruct (inventory_values _ s) as [[values|e] s1]; [|discriminate].
    unfold bind at 1. destruct (recent _ s1) as [[l|e] s2]; [|discriminate].
    cbn. intros H. injection H as <- _. reflexivity. }
  rewrite Hcount. f_equal. apply filter_ext_in.
  intros p Hp. rewrite Forall_forall in Hinv. destruct (Hinv p Hp) as [_ Hpos].
  destruct (Product.in_stock p); [|reflexivity].
  cbn. apply Z.ltb_lt. now apply Hpos.
Qed.

End StatisticsProperties.

Lemma get_statistics_outcome_witness :
  let order := CreateOrder (OrderData.mk (Some "user_001")
                              (Some [OrderItem.mk (Some "prod_002") (Some (- 2 ^ 1024))])) in
  let s := snd (handle ascii_lower order seeded) in
  fst (create_order (OrderData.mk (Some "user_001")
                       (Some [OrderItem.mk (Some "prod_002") (Some (- 2 ^ 1024))])) seeded)
  = Raise OverflowError /\
  get_statistics Py.fsum s = (Raise OverflowError, s).
Proof.
  cbv zeta. split; [vm_compute; reflexivity|].
  apply (get_statistics_outcome Py.fsum).
  eexists. split; [right; left; vm_compute; reflexivity|]. vm_compute. reflexivity.
Defined.

Lemma statistics_agree_with_listing_witness :
  let order q := CreateOrder (OrderData.mk (Some "user_001")
                                (Some [OrderItem.mk (Some "prod_001") (Some q)])) in
  let s := handle_all ascii_lower [order 50; order (-1)] (initial_state world0) in
  exists resp records,
    fst (get_statistics Py.fsum s) = Ok resp /\
    payload (fst (get_products ascii_lower None None None true None s))
    = Some (DList records) /\
    List.length records = Statistics.in_stock_products (StatisticsResponse.data resp) /\
    Statistics.in_stock_products (StatisticsResponse.data resp) = 2%nat.
Proof.
  cbv zeta.
  pose (order q := CreateOrder (OrderData.mk (Some "user_001")
                                  (Some [OrderItem.mk (Some "prod_001") (Some q)]))).
  pose (s := handle_all ascii_lower [order 50; order (-1)] (initial_state world0)).
  destruct (fst (get_statistics Py.fsum s)) as [resp|e] eqn:Hfst;
    [|vm_compute in Hfst; discriminate].
  assert (Hrun : get_statistics Py.fsum s = (Ok resp, snd (get_statistics Py.fsum s))).
  { rewrite (surjective_pairing (get_statistics Py.fsum s)) at 1. now rewrite Hfst. }
  destruct (statistics_agree_with_listing Py.fsum ascii_lower s
              (snd (get_statistics Py.fsum s)) resp) as (records & Hl & Hn).
  - unfold s, handle_all. cbn [fold_left].
    repeat (apply reach_step; [|exact I]). apply reach_init.
  - exact Hrun.
  - exists resp, records. split; [exact Hfst|]. split; [exact Hl|]. split; [exact Hn|].
    clear Hrun Hl Hn. vm_compute in Hfst. injection Hfst as <-. reflexivity.
Defined.

(** ** Which conflict is reported *)

(** X18: [create_user] checks the username before the email: a user whose
    username is taken is refused with "Username already exists", whether its
    email is taken or not, and a user with a free username and a taken email
    with "Email already exists"; both with status 400 and the state
    unchanged. *)
Theorem create_user_conflict_detail (user : User.t) (s : State) :
  let users := SimulatedDatabase.users (db s) in
  ((exists u, In u users /\ User.username u = User.username user) ->
   create_user user s = (Raise (HTTPException 400 "Username already exists"), s)) /\
  ((forall u, In u users -> User.username u <> User.username user) ->
   (exists u, In u users /\ User.email u = User.email user) ->
   create_user user s = (Raise (HTTPException 400 "Email already exists"), s)).
Proof.
  cbv zeta. rewrite create_user_run. split.
  - intros Hname. apply (existsb_field User.username) in Hname. now rewrite Hname.
  - intros Hfree Hmail.
    destruct (existsb (fun u => String.eqb (User.username u) (User.username user)) _)
      eqn:Hname.
    + apply (existsb_field User.username) in Hname.
      destruct Hname as (u & Hu & He). now apply Hfree in Hu.
    + apply (existsb_field User.email) in Hmail. now rewrite Hmail.
Qed.

Lemma create_user_conflict_detail_witness :
  create_user (User.mk "u-1" "alice_w" "bob@example.com" USER 7 true) seeded
  = (Raise (HTTPException 400 "Username already exists"), seeded) /\
  create_user (User.mk "u-2" "ALICE_W" "bob@example.com" USER 7 true) seeded
  = (Raise (HTTPException 400 "Email already exists"), seeded).
Proof.
  split.
  - apply (create_user_conflict_detail
             (User.mk "u-1" "alice_w" "bob@example.com" USER 7 true) seeded).
    eexists. split; [left; vm_compute; reflexivity|reflexivity].
  - apply (create_user_conflict_detail
             (User.mk "u-2" "ALICE_W" "bob@example.com" USER 7 true) seeded).
    + intros u Hu. vm_compute in Hu.
      destruct Hu as [<-|[<-|[<-|[]]]]; discriminate.
    + eexists. split; [right; left; vm_compute; reflexivity|reflexivity].
Defined.

(** ** The default listing only shrinks *)

Lemma filter_Forall2_length {A} (f : A -> bool) (l l' : list A) :
  Forall2 (fun x x' => f x' = true -> f x = true) l l' ->
  (List.length (filter f l') <= List.length (filter f l))%nat.
Proof.
  induction 1 as [|x x' l l' Hx _ IH]; cbn; [lia|].
  destruct (f x') eqn:Hfx'; [rewrite (Hx eq_refl); cbn; lia|].
  destruct (f x); cbn; lia.
Qed.

(** X19: from a state reached from the seeded store, no sequence of
    requests brings a product back into the listing that is called without
    any filter: a product listed after it was listed before, so the listing
    never grows.  An order for a negative quantity raises the stock of a
    sold-out product and still leaves it out. *)
Theorem default_listing_only_shrinks (lower : string -> string)
    (requests : list Request) (s : State) :
  reachable lower (fun _ => True) s ->
  let listed := filter_products lower None None None true None in
  let before := SimulatedDatabase.products (db s) in
  let after := SimulatedDatabase.products (db (handle_all lower requests s)) in
  Forall2 (fun p p' =>
             catalogue_entry p' = catalogue_entry p /\
             (In p' (listed after) -> In p (listed before)))
    before after /\
  (List.length (listed after) <= List.length (listed before))%nat.
Proof.
  intros Hreach. cbv zeta.
  pose proof (reachable_sellable lower s Hreach) as Hinv.
  rewrite Forall_forall in Hinv.
  assert (Hlater : Forall2 later_product (SimulatedDatabase.products (db s))
                     (SimulatedDatabase.products (db (handle_all lower requests s)))).
  { apply (handle_all_products (Forall2 later_product (SimulatedDatabase.products (db s)))).
    - intros ps item product Hps _ _. now apply decrement_item_later.
    - apply Forall2_refl. intros x. split; auto. }
  apply Forall2_In_l in Hlater.
  assert (Hlisted : forall p p',
             later_product p p' /\ In p (SimulatedDatabase.products (db s)) ->
             (Product.in_stock p' && (0 <? Product.stock_quantity p')) = true ->
             (Product.in_stock p && (0 <? Product.stock_quantity p)) = true).
  { intros p p' [[_ Hflag] Hin] H.
    apply andb_true_iff in H. destruct H as [Hon _].
    destruct (Hinv p Hin) as [_ Hpos].
    apply Hflag in Hon. rewrite Hon. cbn. apply Z.ltb_lt. now apply Hpos. }
  cbn [filter_products]. split.
  - eapply Forall2_impl; [|exact Hlater]. cbn beta.
    intros p p' [[Hentry Hflag] Hin]. split; [exact Hentry|].
    intros Hp'. apply filter_In in Hp'. destruct Hp' as [_ Hp'].
    apply filter_In. split; [exact Hin|].
    now apply (Hlisted p p' (conj (conj Hentry Hflag) Hin)).
  - apply filter_Forall2_length.
    eapply Forall2_impl; [|exact Hlater]. cbn beta. intros p p' H. now apply Hlisted.
Qed.

Lemma default_listing_only_shrinks_witness :
  let order q := CreateOrder (OrderData.mk (Some "user_001")
                                (Some [OrderItem.mk (Some "prod_001") (Some q)])) in
  let listed := filter_products ascii_lower None None None true None in
  let s := snd (handle ascii_lower (order 50) (initial_state world0)) in
  let after := SimulatedDatabase.products (db (handle_all ascii_lower [order (-20)] s)) in
  map Product.stock_quantity after = [20; 25; 100] /\
  map Product.id (listed after) = ["prod_002"; "prod_003"] /\
  (List.length (listed after)
   <= List.length (listed (SimulatedDatabase.products (db s))))%nat.
Proof.
  cbv zeta. split; [vm_compute; reflexivity|]. split; [vm_compute; reflexivity|].
  apply (default_listing_only_shrinks ascii_lower).
  apply reach_step; [apply reach_init|exact I].
Defined.
